(** * Altair.tsx: tool-call dispatch and presentation state

    A shallow embedding of the [AltairComponent] of
    [src/components/altair/Altair.tsx]: the two tool declarations, the
    [onToolCall] handler registered on the live client, the two pieces of
    component state it writes ([jsonString] and [roomResult]), the
    acknowledgment it schedules with [setTimeout], and the effect that reports
    the presence of a room-inspection result to the parent.

    The handler is JavaScript: values are untyped at run time, a property read
    on [undefined] or [null] throws, and the arguments of a function call are
    an optional field of the SDK type.  The embedding keeps all three.

    The second part covers the rest of the component: the tools it
    configures the session with, the element tree it returns, the effect
    that embeds the chart, and the subscription it drops when removed. *)

From Stdlib Require Import ZArith List Floats.SpecFloat.
From stdpp Require Import gmap strings list.

Open Scope Z_scope.

(** ** JavaScript values *)

(** The values that travel through the handler: what a JSON payload can hold,
    plus [undefined].  A number is an IEEE 754 double ([spec_float]); an
    object has an identity ([ref]) and its own properties. *)
#[warnings="-register-all"]
Inductive value : Type :=
| VUndefined
| VNull
| VBool (b : bool)
| VNum (x : spec_float)
| VStr (s : string)
| VObj (ref : positive) (props : gmap string value).

(** [ToBoolean]: what [!!v], [v && ...] and [if (v)] test. *)
Definition truthy (v : value) : bool :=
  match v with
  | VUndefined | VNull => false
  | VBool b => b
  | VNum (S754_zero _) | VNum S754_nan => false
  | VNum _ => true
  | VStr EmptyString => false
  | VStr _ => true
  | VObj _ _ => true
  end.

Definition spec_float_eqb (x y : spec_float) : bool :=
  match x, y with
  | S754_zero s, S754_zero t => Bool.eqb s t
  | S754_infinity s, S754_infinity t => Bool.eqb s t
  | S754_nan, S754_nan => true
  | S754_finite s m e, S754_finite t n f =>
      Bool.eqb s t && Pos.eqb m n && Z.eqb e f
  | _, _ => false
  end.

(** [Object.is], the comparison React applies to effect dependencies:
    primitives by value ([NaN] is itself, [+0] is not [-0]), objects by
    identity. *)
Definition same_value (a b : value) : bool :=
  match a, b with
  | VUndefined, VUndefined => true
  | VNull, VNull => true
  | VBool x, VBool y => Bool.eqb x y
  | VNum x, VNum y => spec_float_eqb x y
  | VStr x, VStr y => String.eqb x y
  | VObj r _, VObj r' _ => Pos.eqb r r'
  | _, _ => false
  end.

Inductive exn : Type :=
| TypeError.

Inductive completion (A : Type) : Type :=
| Normal (a : A)
| Abrupt (e : exn).
Arguments Normal {A} a.
Arguments Abrupt {A} e.

(** [v.k] for a key [k] that no prototype defines (such as [json_graph]):
    reading a property of [undefined] or [null] throws, an object answers with
    its own property or [undefined], any other primitive with [undefined]. *)
Definition get_property (v : value) (k : string) : completion value :=
  match v with
  | VUndefined | VNull => Abrupt TypeError
  | VObj _ props => Normal (default VUndefined (props !! k))
  | VBool _ | VNum _ | VStr _ => Normal VUndefined
  end.

(** ** The SDK's types *)

(** [FunctionDeclaration], with the fields the component fills in. *)
Record FunctionDeclaration : Type := {
  decl_name : string;
  decl_description : string;
  decl_required : list string
}.

(** [FunctionCall]: the three fields are optional in the SDK
    ([id?], [args?], [name?]); an absent [args] is [VUndefined]. *)
Record FunctionCall : Type := {
  fc_id : option string;
  fc_name : option string;
  fc_args : value
}.

(** [LiveServerToolCall]: [functionCalls?] is optional too. *)
Record LiveServerToolCall : Type := {
  functionCalls : option (list FunctionCall)
}.

(** The literal [{ output: { success: true } }]. *)
Record Output : Type := { success : bool }.
Record Response : Type := { output : Output }.

Record FunctionResponse : Type := {
  fr_response : Response;
  fr_id : option string;
  fr_name : option string
}.

(** The argument of [client.sendToolResponse]; [functionResponses] is what
    [toolCall.functionCalls?.map(...)] evaluates to. *)
Record ToolResponse : Type := {
  functionResponses : option (list FunctionResponse)
}.

(** ** The tool declarations *)

Definition chartDeclaration : FunctionDeclaration := {|
  decl_name := "render_altair";
  decl_description := "Displays an altair graph in json format.";
  decl_required := ["json_graph"%string]
|}.

Definition roomInspectionDeclaration : FunctionDeclaration := {|
  decl_name := "inspect_room";
  decl_description :=
    "Analyzes video feed to assess room cleanliness and tidiness.";
  decl_required := ["assessment"%string; "score"%string]
|}.

(** ** Component state and the handler's environment *)

(** The two [useState] cells.  [jsonString] is declared a string and
    [roomResult] an object or [null], but both are written from unchecked
    arguments, so at run time each holds a [value]. *)
Record State : Type := {
  jsonString : value;
  roomResult : value
}.

Definition initial : State :=
  {| jsonString := VStr ""; roomResult := VNull |}.

(** The arrow function handed to [setTimeout], as the data it closes over. *)
Inductive Callback : Type :=
| SendToolResponse (toolCall : LiveServerToolCall).

Record Timeout : Type := {
  to_callback : Callback;
  to_delay : Z
}.

(** What one run of the handler acts on: the state the setters have written so
    far (React commits it when the handler is over) and the timeouts it has
    requested, oldest first. *)
Record Env : Type := {
  env_state : State;
  env_timeouts : list Timeout
}.

(** ** A state monad with exceptions

    A computation takes the environment and gives a completion and the
    environment it leaves; writes made before a throw stay made. *)
Definition M (A : Type) : Type := Env -> completion A * Env.

Definition ret {A : Type} (a : A) : M A := fun env => (Normal a, env).

Definition bind {A B : Type} (c : M A) (k : A -> M B) : M B :=
  fun env =>
    match c env with
    | (Normal a, env') => k a env'
    | (Abrupt e, env') => (Abrupt e, env')
    end.

Notation "'let*' x ':=' c 'in' k" := (bind c (fun x => k))
  (at level 10, x name, c at level 100, k at level 200).
Notation "c ';;' k" := (bind c (fun _ => k))
  (at level 100, k at level 200, right associativity).

Definition lift {A : Type} (c : completion A) : M A := fun env => (c, env).

Definition setJSONString (v : value) : M unit :=
  fun env =>
    (Normal tt,
     {| env_state := {| jsonString := v;
                        roomResult := roomResult (env_state env) |};
        env_timeouts := env_timeouts env |}).

Definition setRoomResult (v : value) : M unit :=
  fun env =>
    (Normal tt,
     {| env_state := {| jsonString := jsonString (env_state env);
                        roomResult := v |};
        env_timeouts := env_timeouts env |}).

Definition setTimeout (cb : Callback) (ms : Z) : M unit :=
  fun env =>
    (Normal tt,
     {| env_state := env_state env;
        env_timeouts :=
          env_timeouts env ++ [{| to_callback := cb; to_delay := ms |}] |}).

(** ** The handler *)

(** [fc.name === decl.name]: an absent name equals no string. *)
Definition name_is (decl : FunctionDeclaration) (fc : FunctionCall) : bool :=
  match fc_name fc with
  | Some n => String.eqb n (decl_name decl)
  | None => false
  end.

(** Lines 117-124: the chart branch. *)
Definition chart_branch (fcs : list FunctionCall) : M unit :=
  match find (name_is chartDeclaration) fcs with
  | Some chartFc =>
      let* str := lift (get_property (fc_args chartFc) "json_graph") in
      setJSONString str ;;
      setRoomResult VNull
  | None => ret tt
  end.

(** Lines 127-133: the room-inspection branch. *)
Definition room_branch (fcs : list FunctionCall) : M unit :=
  match find (name_is roomInspectionDeclaration) fcs with
  | Some roomFc =>
      setRoomResult (fc_args roomFc) ;;
      setJSONString (VStr "")
  | None => ret tt
  end.

(** Lines 136-148: the acknowledgment, requested when the batch has a
    non-zero length. *)
Definition ack_branch (toolCall : LiveServerToolCall)
    (fcs : list FunctionCall) : M unit :=
  match fcs with
  | [] => ret tt
  | _ :: _ => setTimeout (SendToolResponse toolCall) 200
  end.

Definition onToolCall (toolCall : LiveServerToolCall) : M unit :=
  match functionCalls toolCall with
  | None => ret tt
  | Some fcs =>
      chart_branch fcs ;;
      room_branch fcs ;;
      ack_branch toolCall fcs
  end.

(** One item of the reply: the object literal of lines 140-144. *)
Definition acknowledge (fc : FunctionCall) : FunctionResponse := {|
  fr_response := {| output := {| success := true |} |};
  fr_id := fc_id fc;
  fr_name := fc_name fc
|}.

(** What the timeout's callback hands to [client.sendToolResponse]. *)
Definition run_callback (cb : Callback) : ToolResponse :=
  match cb with
  | SendToolResponse toolCall =>
      {| functionResponses := map acknowledge <$> functionCalls toolCall |}
  end.

(** ** The component around the handler *)

(** One delivery of a tool call to the handler, from committed state [s]. *)
Definition handle (s : State) (toolCall : LiveServerToolCall)
    : completion unit * Env :=
  onToolCall toolCall {| env_state := s; env_timeouts := [] |}.

(** The state React commits once the handler is over. *)
Definition dispatch (s : State) (toolCall : LiveServerToolCall) : State :=
  env_state (snd (handle s toolCall)).

Definition run (s : State) (toolCalls : list LiveServerToolCall) : State :=
  fold_left dispatch toolCalls s.

(** What the JSX shows: [jsonString && <div className="vega-embed" />] and
    [roomResult && <div className="room-inspector" />]. *)
Definition chart_active (s : State) : bool := truthy (jsonString s).
Definition inspection_active (s : State) : bool := truthy (roomResult s).

(** The state each branch leaves when it runs last: the chart branch writes
    the text and [null], the room branch the arguments and the empty text. *)
Definition Chart (text : value) : State :=
  {| jsonString := text; roomResult := VNull |}.
Definition Inspection (args : value) : State :=
  {| jsonString := VStr ""; roomResult := args |}.

(** What a tool call writes, whatever the state before: nothing when the
    batch is absent, when it names neither tool, or when the read of
    [json_graph] throws. *)
Definition written (toolCall : LiveServerToolCall) : option State :=
  match functionCalls toolCall with
  | None => None
  | Some fcs =>
      match find (name_is chartDeclaration) fcs,
            find (name_is roomInspectionDeclaration) fcs with
      | Some chartFc, Some roomFc =>
          match get_property (fc_args chartFc) "json_graph" with
          | Normal _ => Some (Inspection (fc_args roomFc))
          | Abrupt _ => None
          end
      | Some chartFc, None =>
          match get_property (fc_args chartFc) "json_graph" with
          | Normal str => Some (Chart str)
          | Abrupt _ => None
          end
      | None, Some roomFc => Some (Inspection (fc_args roomFc))
      | None, None => None
      end
  end.

(** The two cells are never both in use: the text is the empty string or the
    result is [null]. *)
Definition exclusive (s : State) : Prop :=
  jsonString s = VStr "" \/ roomResult s = VNull.

(** A name the handler does not look for. *)
Definition unrecognized (fc : FunctionCall) : bool :=
  negb (name_is chartDeclaration fc) &&
  negb (name_is roomInspectionDeclaration fc).

(** The props: [onRoomInspectionChange?], a function known by its identity. *)
Record AltairProps : Type := {
  onRoomInspectionChange : option positive
}.

(** The dependency array [[roomResult, onRoomInspectionChange]]. *)
Definition Deps : Type := (value * option positive)%type.

Definition deps_of (p : AltairProps) (s : State) : Deps :=
  (roomResult s, onRoomInspectionChange p).

Definition same_function (f g : option positive) : bool :=
  match f, g with
  | Some a, Some b => Pos.eqb a b
  | None, None => true
  | _, _ => false
  end.

Definition deps_unchanged (old new : Deps) : bool :=
  same_value (fst old) (fst new) && same_function (snd old) (snd new).

(** A call of the parent's callback: which function, with which argument. *)
Definition Notification : Type := (positive * bool)%type.

(** The body of the effect of lines 73-75:
    [onRoomInspectionChange?.(!!roomResult)]. *)
Definition notify_effect (p : AltairProps) (s : State) : list Notification :=
  match onRoomInspectionChange p with
  | Some f => [(f, truthy (roomResult s))]
  | None => []
  end.

(** The effect after a commit: it runs when a dependency has changed since
    the previous commit. *)
Definition after_commit (old : Deps) (p : AltairProps) (s : State)
    : list Notification :=
  if deps_unchanged old (deps_of p s) then [] else notify_effect p s.

(** The mounted component and what it has done so far: calls of the parent's
    callback and replies handed to the client (oldest first), and the
    timeouts still pending with the time at which each is due. *)
Record Component : Type := {
  c_state : State;
  c_props : AltairProps;
  c_deps : Deps;
  c_notified : list Notification;
  c_clock : Z;
  c_pending : list (Z * Callback);
  c_sent : list ToolResponse
}.

(** Mounting: the first render commits the initial state and every effect
    runs once. *)
Definition mount (p : AltairProps) : Component := {|
  c_state := initial;
  c_props := p;
  c_deps := deps_of p initial;
  c_notified := notify_effect p initial;
  c_clock := 0;
  c_pending := [];
  c_sent := []
|}.

Inductive Event : Type :=
| ToolCall (toolCall : LiveServerToolCall)
| Elapse (ms : Z).

Definition due_by (now : Z) (t : Z * Callback) : bool := fst t <=? now.

(** The client emits [toolcall] (the handler runs, its timeouts are armed, the
    component re-renders and the effects whose dependencies changed run), or
    time passes and the timeouts that have come due fire, each once.

    The tool-call step is the step React makes when it commits the state the
    handler leaves.  It commits only a state for which the component returns
    a tree that React accepts ([commits], below); for any other state the
    state and the notifications given here are not those of a live
    component, while clock, pending timeouts and replies still are. *)
Definition step (c : Component) (ev : Event) : Component :=
  match ev with
  | ToolCall toolCall =>
      let env := snd (handle (c_state c) toolCall) in
      let s' := env_state env in
      {| c_state := s';
         c_props := c_props c;
         c_deps := deps_of (c_props c) s';
         c_notified :=
           c_notified c ++ after_commit (c_deps c) (c_props c) s';
         c_clock := c_clock c;
         c_pending :=
           c_pending c ++
           map (fun t => (c_clock c + to_delay t, to_callback t))
               (env_timeouts env);
         c_sent := c_sent c |}
  | Elapse ms =>
      let now := c_clock c + Z.max 0 ms in
      {| c_state := c_state c;
         c_props := c_props c;
         c_deps := c_deps c;
         c_notified := c_notified c;
         c_clock := now;
         c_pending := List.filter (fun t => negb (due_by now t)) (c_pending c);
         c_sent :=
           c_sent c ++
           map (fun t => run_callback (snd t))
               (List.filter (due_by now) (c_pending c)) |}
  end.

Definition steps (c : Component) (evs : list Event) : Component :=
  fold_left step evs c.

(** What one event adds to the two logs. *)
Definition notified_by (c : Component) (ev : Event) : list Notification :=
  drop (length (c_notified c)) (c_notified (step c ev)).

Definition sent_by (c : Component) (evs : list Event) : list ToolResponse :=
  drop (length (c_sent c)) (c_sent (steps c evs)).

(** The timeouts a batch asks for when the handler reaches line 136. *)
Definition requested (toolCall : LiveServerToolCall)
    (fcs : list FunctionCall) : list Timeout :=
  match fcs with
  | [] => []
  | _ :: _ =>
      [{| to_callback := SendToolResponse toolCall; to_delay := 200 |}]
  end.

(** The replies that requested timeouts deliver when they fire. *)
Definition replies (timeouts : list Timeout) : list ToolResponse :=
  map (fun t => run_callback (to_callback t)) timeouts.

(** A component between events: its props are [p], the dependencies on
    record are those of the committed state, and that state is exclusive. *)
Definition settled (p : AltairProps) (c : Component) : Prop :=
  c_props c = p /\ c_deps c = deps_of p (c_state c) /\ exclusive (c_state c).

(** ** Example inputs *)

Module Examples.

Definition number (n : positive) : value := VNum (S754_finite false n 0).

Definition chart1 : FunctionCall := {|
  fc_id := Some "1"%string;
  fc_name := Some "render_altair"%string;
  fc_args := VObj 1 {[ "json_graph"%string := VStr "{}" ]}
|}.

Definition room2 : FunctionCall := {|
  fc_id := Some "2"%string;
  fc_name := Some "inspect_room"%string;
  fc_args :=
    VObj 2 (<[ "assessment"%string := VStr "Tidy" ]>
              {[ "score"%string := number 8 ]})
|}.

Definition chart3 : FunctionCall := {|
  fc_id := Some "3"%string;
  fc_name := Some "render_altair"%string;
  fc_args := VObj 3 {[ "json_graph"%string := VStr "{...}" ]}
|}.

Definition unknown4 : FunctionCall := {|
  fc_id := Some "4"%string;
  fc_name := Some "unknown_tool"%string;
  fc_args := VObj 4 ∅
|}.

(** A chart call whose [args] field is absent. *)
Definition chart5 : FunctionCall := {|
  fc_id := Some "5"%string;
  fc_name := Some "render_altair"%string;
  fc_args := VUndefined
|}.

(** A chart call whose arguments lack [json_graph]. *)
Definition chart6 : FunctionCall := {|
  fc_id := Some "6"%string;
  fc_name := Some "render_altair"%string;
  fc_args := VObj 6 ∅
|}.

(** An inspection call whose arguments are not what the declaration
    asks for: [assessment] is a number and [score] is missing. *)
Definition room7 : FunctionCall := {|
  fc_id := Some "7"%string;
  fc_name := Some "inspect_room"%string;
  fc_args := VObj 7 {[ "assessment"%string := number 3 ]}
|}.

Definition batch (fcs : list FunctionCall) : LiveServerToolCall :=
  {| functionCalls := Some fcs |}.

Definition parent : AltairProps := {| onRoomInspectionChange := Some 1%positive |}.

End Examples.

(** ** The tools the session is configured with *)

(** The entries of the [tools] array of lines 103-106. *)
Inductive Tool : Type :=
| GoogleSearch
| FunctionDeclarations (declarations : list FunctionDeclaration).

Definition config_tools : list Tool :=
  [GoogleSearch;
   FunctionDeclarations [chartDeclaration; roomInspectionDeclaration]].

(** The functions a tool list offers to the model. *)
Definition declared (tools : list Tool) : list FunctionDeclaration :=
  flat_map
    (fun t =>
       match t with
       | GoogleSearch => []
       | FunctionDeclarations ds => ds
       end)
    tools.

(** ** Which batches the handler completes, and what they are owed *)

(** The handler's only throwing step is the read of line 121. *)
Definition completes (toolCall : LiveServerToolCall) : bool :=
  match functionCalls toolCall with
  | None => true
  | Some fcs =>
      match find (name_is chartDeclaration) fcs with
      | Some chartFc =>
          match get_property (fc_args chartFc) "json_graph" with
          | Normal _ => true
          | Abrupt _ => false
          end
      | None => true
      end
  end.

(** The reply a tool call is owed: one for a non-empty batch that the
    handler completes. *)
Definition owed (toolCall : LiveServerToolCall) : list ToolResponse :=
  match functionCalls toolCall with
  | Some (fc :: rest) =>
      if completes toolCall
      then [{| functionResponses := Some (map acknowledge (fc :: rest)) |}]
      else []
  | _ => []
  end.

Definition owed_by (ev : Event) : list ToolResponse :=
  match ev with
  | ToolCall toolCall => owed toolCall
  | Elapse _ => []
  end.

(** The replies that the pending timeouts will deliver, in order. *)
Definition pending_replies (c : Component) : list ToolResponse :=
  map (fun t => run_callback (snd t)) (c_pending c).

(** Due times in the order the timeouts were armed, none later than [bound]
    and each no later than those behind it. *)
Fixpoint ascending (bound : Z) (dues : list Z) : Prop :=
  match dues with
  | [] => True
  | d :: rest => d <= bound /\ Forall (Z.le d) rest /\ ascending bound rest
  end.

(** Pending timeouts are not yet due, are due within 200 ms, and are in the
    order of their due times. *)
Definition pending_ordered (c : Component) : Prop :=
  Forall (fun t => c_clock c < fst t) (c_pending c)
  /\ ascending (c_clock c + 200) (map fst (c_pending c)).

(** ** What the component returns (lines 165-256) *)

(** A JSX child written [v && element]: the element, or the falsy [v]. *)
Inductive Slot (A : Type) : Type :=
| Element (a : A)
| Falsy (v : value).
Arguments Element {A} a.
Arguments Falsy {A} v.

Definition and_element {A : Type} (v : value) (element : A) : Slot A :=
  if truthy v then Element element else Falsy v.

Definition mounted {A : Type} (slot : Slot A) : bool :=
  match slot with
  | Element _ => true
  | Falsy _ => false
  end.

(** The double nearest to an integer. *)
Definition double_of_Z (n : Z) : spec_float :=
  binary_normalize 53 1024 n 0 false.

(** [ToNumber].  The conversion of a string is the language's
    [StringToNumber], taken as [str2num].  A plain object is first made
    primitive: the inherited [valueOf] gives the object back, so its
    [toString] is called next; the inherited one answers
    [[object Object]], but an own property [toString], which in a JSON
    payload is never a function, hides it, and the conversion throws. *)
Definition ToNumber (str2num : string -> spec_float) (v : value)
    : completion spec_float :=
  match v with
  | VUndefined => Normal S754_nan
  | VNull => Normal (S754_zero false)
  | VBool true => Normal (double_of_Z 1)
  | VBool false => Normal (S754_zero false)
  | VNum x => Normal x
  | VStr s => Normal (str2num s)
  | VObj _ props =>
      match props !! "toString"%string with
      | Some _ => Abrupt TypeError
      | None => Normal (str2num "[object Object]")
      end
  end.

(** [x >= y] on numbers: false when either is [NaN]. *)
Definition number_ge (x y : spec_float) : bool :=
  match SFcompare x y with
  | Some Gt | Some Eq => true
  | _ => false
  end.

(** The colour of the score line (line 197): [score >= 7], then
    [score >= 5], each against the score made a number. *)
Definition score_color (str2num : string -> spec_float) (score : value)
    : completion string :=
  match ToNumber str2num score with
  | Normal x =>
      Normal
        (if number_ge x (double_of_Z 7) then "#28a745"
         else if number_ge x (double_of_Z 5) then "#ffc107"
         else "#dc3545")%string
  | Abrupt e => Abrupt e
  end.

(** The room-inspector block: the colour, and the two values placed in the
    text as children. *)
Record Inspector : Type := {
  ins_color : string;
  ins_score : value;
  ins_assessment : value
}.

Record View : Type := {
  v_vega : Slot unit;
  v_inspector : Slot Inspector;
  v_default : Slot unit
}.

Definition inspector (str2num : string -> spec_float) (result : value)
    : completion Inspector :=
  match get_property result "score" with
  | Normal score =>
      match score_color str2num score with
      | Normal color =>
          match get_property result "assessment" with
          | Normal assessment =>
              Normal {| ins_color := color;
                        ins_score := score;
                        ins_assessment := assessment |}
          | Abrupt e => Abrupt e
          end
      | Abrupt e => Abrupt e
      end
  | Abrupt e => Abrupt e
  end.

(** The element tree the component function returns for a state. *)
Definition render (str2num : string -> spec_float) (s : State)
    : completion View :=
  let vega := and_element (jsonString s) tt in
  let fallback :=
    if negb (truthy (jsonString s)) && negb (truthy (roomResult s))
    then Element tt else Falsy (VBool false) in
  if truthy (roomResult s) then
    match inspector str2num (roomResult s) with
    | Normal i =>
        Normal {| v_vega := vega;
                  v_inspector := Element i;
                  v_default := fallback |}
    | Abrupt e => Abrupt e
    end
  else
    Normal {| v_vega := vega;
              v_inspector := Falsy (roomResult s);
              v_default := fallback |}.

Definition mounted_count (v : View) : nat :=
  (if mounted (v_vega v) then 1 else 0)%nat +
  (if mounted (v_inspector v) then 1 else 0)%nat +
  (if mounted (v_default v) then 1 else 0)%nat.

(** What React places as a child: strings and numbers as text, booleans,
    [null] and [undefined] as nothing; a plain object is refused (objects
    are not valid as a React child). *)
Definition valid_child (v : value) : bool :=
  match v with
  | VObj _ _ => false
  | _ => true
  end.

Definition slot_accepted {A : Type} (inner : A -> bool) (slot : Slot A)
    : bool :=
  match slot with
  | Element a => inner a
  | Falsy v => valid_child v
  end.

(** The children of the tree: the three slots, and in the inspector block
    the score of line 200 and the assessment of line 208. *)
Definition accepted (v : View) : bool :=
  slot_accepted (fun _ => true) (v_vega v)
  && slot_accepted
       (fun i => valid_child (ins_score i) && valid_child (ins_assessment i))
       (v_inspector v)
  && slot_accepted (fun _ => true) (v_default v).

(** React commits a state, and then runs the effects, when the component
    function returns a tree for it and the tree is accepted; when either
    fails the component is taken down and no effect runs. *)
Definition commits (str2num : string -> spec_float) (s : State) : bool :=
  match render str2num s with
  | Normal v => accepted v
  | Abrupt _ => false
  end.

(** ** The page: subscription and chart embedding *)

(** The effect of lines 158-163, run after a commit in which [jsonString]
    changed: [embedRef.current] is the chart's [div], there exactly when the
    chart slot is mounted; the value listed is the one handed to
    [JSON.parse] on the way to [vegaEmbed]. *)
Definition embed_body (s : State) : list value :=
  if mounted (and_element (jsonString s) tt) && truthy (jsonString s)
  then [jsonString s] else [].

Definition embed_effect (old : value) (s : State) : list value :=
  if same_value old (jsonString s) then [] else embed_body s.

(** The component on its page: whether [onToolCall] is still subscribed to
    the client (lines 150-153), and the values handed to [JSON.parse] so far,
    oldest first. *)
Record Page : Type := {
  pg_component : Component;
  pg_listening : bool;
  pg_parsed : list value
}.

Definition open_page (p : AltairProps) : Page := {|
  pg_component := mount p;
  pg_listening := true;
  pg_parsed := embed_body initial
|}.

Inductive PageEvent : Type :=
| Emit (toolCall : LiveServerToolCall)
| Wait (ms : Z)
| Unmount.

(** The client emits [toolcall] (heard only while subscribed), time passes
    (timeouts fire whether or not the component is still there: none is
    ever cleared), or the component is removed and the effect's cleanup
    calls [client.off].

    Nothing in the component catches an error.  The new state may be one
    React does not commit (building the tree throws, or a child is an
    object), and [JSON.parse] throws on a text that is not JSON: [parses]
    tells the values on which [JSON.parse] and the call of [vegaEmbed]
    return.  A step in which either fails has no result here ([None]); what
    becomes of the component then is up to React and the page around it. *)
Definition page_step (str2num : string -> spec_float)
    (parses : value -> bool) (pg : Page) (ev : PageEvent) : option Page :=
  match ev with
  | Emit toolCall =>
      if pg_listening pg then
        let c' := step (pg_component pg) (ToolCall toolCall) in
        if commits str2num (c_state c') then
          let handed :=
            embed_effect (jsonString (c_state (pg_component pg)))
              (c_state c') in
          if forallb parses handed then
            Some {| pg_component := c';
                    pg_listening := true;
                    pg_parsed := pg_parsed pg ++ handed |}
          else None
        else None
      else Some pg
  | Wait ms =>
      Some {| pg_component := step (pg_component pg) (Elapse ms);
              pg_listening := pg_listening pg;
              pg_parsed := pg_parsed pg |}
  | Unmount =>
      Some {| pg_component := pg_component pg;
              pg_listening := false;
              pg_parsed := pg_parsed pg |}
  end.

Fixpoint page_steps (str2num : string -> spec_float)
    (parses : value -> bool) (pg : Page) (evs : list PageEvent)
    : option Page :=
  match evs with
  | [] => Some pg
  | ev :: rest =>
      match page_step str2num parses pg ev with
      | Some pg' => page_steps str2num parses pg' rest
      | None => None
      end
  end.

(** The events of a page that reach the component: emissions while it is
    subscribed, and the passing of time. *)
Fixpoint heard (listening : bool) (evs : list PageEvent) : list Event :=
  match evs with
  | [] => []
  | Emit toolCall :: rest =>
      if listening then ToolCall toolCall :: heard listening rest
      else heard listening rest
  | Wait ms :: rest => Elapse ms :: heard listening rest
  | Unmount :: rest => heard false rest
  end.

(** A chart call whose text is the JSON array [[]], and a [parses] that
    knows the two JSON texts of the examples. *)
Definition chart8 : FunctionCall := {|
  fc_id := Some "8"%string;
  fc_name := Some "render_altair"%string;
  fc_args := VObj 8 {[ "json_graph"%string := VStr "[]" ]}
|}.

Definition parses_examples (v : value) : bool :=
  same_value v (VStr "{}") || same_value v (VStr "[]").

(** ** Basic facts *)

Lemma same_value_truthy (a b : value) :
  same_value a b = true -> truthy a = truthy b.
Proof.
  destruct a as [| |x|x|x|r m], b as [| |y|y|y|r' m']; simpl; try congruence.
  - intros H. apply Bool.eqb_prop in H. assumption.
  - destruct x, y; simpl; intros H; solve [reflexivity | discriminate H].
  - intros H. apply String.eqb_eq in H. subst y. reflexivity.
Qed.

Lemma find_filter_head {A : Type} (p : A -> bool) (l : list A) x rest :
  List.filter p l = x :: rest -> find p l = Some x.
Proof.
  induction l as [|a l IH]; simpl; [discriminate|].
  destruct (p a); [congruence | exact IH].
Qed.

Lemma find_filter_nil {A : Type} (p : A -> bool) (l : list A) :
  List.filter p l = [] -> find p l = None.
Proof.
  induction l as [|a l IH]; simpl; [reflexivity|].
  destruct (p a); [discriminate | exact IH].
Qed.

Lemma find_forallb_none {A : Type} (p q : A -> bool) (l : list A) :
  forallb (fun x => negb (p x) && negb (q x)) l = true ->
  find p l = None /\ find q l = None.
Proof.
  induction l as [|a l IH]; simpl; [auto|].
  destruct (p a), (q a); simpl; try discriminate. exact IH.
Qed.

(** The three ways the chart branch can go. *)
Lemma chart_branch_none fcs env :
  find (name_is chartDeclaration) fcs = None ->
  chart_branch fcs env = (Normal tt, env).
Proof. intros H. unfold chart_branch. rewrite H. reflexivity. Qed.

Lemma chart_branch_writes fcs chartFc str env :
  find (name_is chartDeclaration) fcs = Some chartFc ->
  get_property (fc_args chartFc) "json_graph" = Normal str ->
  chart_branch fcs env =
    (Normal tt,
     {| env_state := Chart str; env_timeouts := env_timeouts env |}).
Proof.
  intros H G. unfold chart_branch. rewrite H.
  unfold bind, lift. rewrite G. reflexivity.
Qed.

Lemma chart_branch_throws fcs chartFc e env :
  find (name_is chartDeclaration) fcs = Some chartFc ->
  get_property (fc_args chartFc) "json_graph" = Abrupt e ->
  chart_branch fcs env = (Abrupt e, env).
Proof.
  intros H G. unfold chart_branch. rewrite H.
  unfold bind, lift. rewrite G. reflexivity.
Qed.

Lemma room_branch_none fcs env :
  find (name_is roomInspectionDeclaration) fcs = None ->
  room_branch fcs env = (Normal tt, env).
Proof. intros H. unfold room_branch. rewrite H. reflexivity. Qed.

Lemma room_branch_writes fcs roomFc env :
  find (name_is roomInspectionDeclaration) fcs = Some roomFc ->
  room_branch fcs env =
    (Normal tt,
     {| env_state := Inspection (fc_args roomFc);
        env_timeouts := env_timeouts env |}).
Proof. intros H. unfold room_branch. rewrite H. reflexivity. Qed.

Lemma ack_branch_requests toolCall fcs s :
  ack_branch toolCall fcs {| env_state := s; env_timeouts := [] |} =
    (Normal tt, {| env_state := s; env_timeouts := requested toolCall fcs |}).
Proof. destruct fcs; reflexivity. Qed.

(** The handler, once the two searches are known. *)
Lemma handle_completes s toolCall fcs s1 s2 :
  functionCalls toolCall = Some fcs ->
  chart_branch fcs {| env_state := s; env_timeouts := [] |} =
    (Normal tt, {| env_state := s1; env_timeouts := [] |}) ->
  room_branch fcs {| env_state := s1; env_timeouts := [] |} =
    (Normal tt, {| env_state := s2; env_timeouts := [] |}) ->
  handle s toolCall =
    (Normal tt,
     {| env_state := s2; env_timeouts := requested toolCall fcs |}).
Proof.
  intros F C R. unfold handle, onToolCall. rewrite F.
  unfold bind at 1. rewrite C. unfold bind at 1. rewrite R.
  apply ack_branch_requests.
Qed.

Lemma handle_throws s toolCall fcs e :
  functionCalls toolCall = Some fcs ->
  chart_branch fcs {| env_state := s; env_timeouts := [] |} =
    (Abrupt e, {| env_state := s; env_timeouts := [] |}) ->
  handle s toolCall = (Abrupt e, {| env_state := s; env_timeouts := [] |}).
Proof.
  intros F C. unfold handle, onToolCall. rewrite F.
  unfold bind at 1. rewrite C. reflexivity.
Qed.

(** The committed state depends on the state before only when the call
    writes nothing. *)
Lemma dispatch_written s toolCall :
  dispatch s toolCall = default s (written toolCall).
Proof.
  unfold dispatch, written.
  destruct (functionCalls toolCall) as [fcs|] eqn:F.
  2:{ unfold handle, onToolCall. rewrite F. reflexivity. }
  pose (env0 := fun s0 => {| env_state := s0; env_timeouts := [] |}).
  destruct (find (name_is chartDeclaration) fcs) as [chartFc|] eqn:C.
  - destruct (get_property (fc_args chartFc) "json_graph") as [str|e] eqn:G.
    + pose proof (chart_branch_writes fcs chartFc str (env0 s) C G) as HC.
      destruct (find (name_is roomInspectionDeclaration) fcs)
        as [roomFc|] eqn:R.
      * pose proof (room_branch_writes fcs roomFc (env0 (Chart str)) R) as HR.
        rewrite (handle_completes s toolCall fcs _ _ F HC HR). reflexivity.
      * pose proof (room_branch_none fcs (env0 (Chart str)) R) as HR.
        rewrite (handle_completes s toolCall fcs _ _ F HC HR). reflexivity.
    + pose proof (chart_branch_throws fcs chartFc e (env0 s) C G) as HC.
      rewrite (handle_throws s toolCall fcs e F HC).
      destruct (find (name_is roomInspectionDeclaration) fcs); reflexivity.
  - pose proof (chart_branch_none fcs (env0 s) C) as HC.
    destruct (find (name_is roomInspectionDeclaration) fcs)
      as [roomFc|] eqn:R.
    + pose proof (room_branch_writes fcs roomFc (env0 s) R) as HR.
      rewrite (handle_completes s toolCall fcs _ _ F HC HR). reflexivity.
    + pose proof (room_branch_none fcs (env0 s) R) as HR.
      rewrite (handle_completes s toolCall fcs _ _ F HC HR). reflexivity.
Qed.

Lemma handle_cases s toolCall fcs :
  functionCalls toolCall = Some fcs ->
  handle s toolCall =
    (Normal tt,
     {| env_state := dispatch s toolCall;
        env_timeouts := requested toolCall fcs |})
  \/ exists chartFc,
       find (name_is chartDeclaration) fcs = Some chartFc /\
       get_property (fc_args chartFc) "json_graph" = Abrupt TypeError /\
       handle s toolCall =
         (Abrupt TypeError, {| env_state := s; env_timeouts := [] |}).
Proof.
  intros F.
  pose (env0 := fun s0 => {| env_state := s0; env_timeouts := [] |}).
  destruct (find (name_is chartDeclaration) fcs) as [chartFc|] eqn:C.
  - destruct (get_property (fc_args chartFc) "json_graph") as [str|[]] eqn:G.
    + left.
      pose proof (chart_branch_writes fcs chartFc str (env0 s) C G) as HC.
      destruct (find (name_is roomInspectionDeclaration) fcs)
        as [roomFc|] eqn:R.
      * pose proof (room_branch_writes fcs roomFc (env0 (Chart str)) R) as HR.
        pose proof (handle_completes s toolCall fcs _ _ F HC HR) as H.
        unfold dispatch. rewrite H. reflexivity.
      * pose proof (room_branch_none fcs (env0 (Chart str)) R) as HR.
        pose proof (handle_completes s toolCall fcs _ _ F HC HR) as H.
        unfold dispatch. rewrite H. reflexivity.
    + right. exists chartFc. split; [reflexivity|]. split; [exact G|].
      apply (handle_throws s toolCall fcs TypeError F).
      apply (chart_branch_throws fcs chartFc TypeError (env0 s) C G).
  - left.
    pose proof (chart_branch_none fcs (env0 s) C) as HC.
    destruct (find (name_is roomInspectionDeclaration) fcs)
      as [roomFc|] eqn:R.
    + pose proof (room_branch_writes fcs roomFc (env0 s) R) as HR.
      pose proof (handle_completes s toolCall fcs _ _ F HC HR) as H.
      unfold dispatch. rewrite H. reflexivity.
    + pose proof (room_branch_none fcs (env0 s) R) as HR.
      pose proof (handle_completes s toolCall fcs _ _ F HC HR) as H.
      unfold dispatch. rewrite H. reflexivity.
Qed.

(** ** The invariant *)

Lemma written_exclusive toolCall s' :
  written toolCall = Some s' -> exclusive s'.
Proof.
  unfold written. intros H.
  destruct (functionCalls toolCall) as [fcs|]; [|discriminate].
  destruct (find (name_is chartDeclaration) fcs) as [chartFc|],
           (find (name_is roomInspectionDeclaration) fcs) as [roomFc|];
    try destruct (get_property (fc_args chartFc) "json_graph");
    inversion H; subst; unfold exclusive; simpl; auto.
Qed.

Lemma dispatch_exclusive s toolCall :
  exclusive s -> exclusive (dispatch s toolCall).
Proof.
  intros Hs. rewrite dispatch_written.
  destruct (written toolCall) as [s'|] eqn:W; simpl.
  - exact (written_exclusive toolCall s' W).
  - exact Hs.
Qed.

Lemma run_exclusive toolCalls :
  forall s, exclusive s -> exclusive (run s toolCalls).
Proof.
  induction toolCalls as [|toolCall rest IH]; intros s Hs; simpl.
  - exact Hs.
  - apply IH. apply dispatch_exclusive. exact Hs.
Qed.

Lemma exclusive_not_both s :
  exclusive s -> chart_active s && inspection_active s = false.
Proof.
  unfold chart_active, inspection_active.
  intros [H|H]; rewrite H; simpl; [reflexivity | apply andb_false_r].
Qed.

Lemma exclusive_chart_active s :
  exclusive s -> chart_active s = true -> roomResult s = VNull.
Proof.
  unfold chart_active. intros [H|H] A; [|exact H].
  rewrite H in A. discriminate A.
Qed.

(** C1.  Mutual exclusion: in every state reached from the initial (empty)
    state by any sequence of tool calls, the chart and the inspection result
    are never both shown; indeed the chart text is the empty string or the
    inspection result is [null]. *)
Theorem mutual_exclusion (toolCalls : list LiveServerToolCall) :
  chart_active (run initial toolCalls) &&
    inspection_active (run initial toolCalls) = false
  /\ exclusive (run initial toolCalls).
Proof.
  assert (exclusive (run initial toolCalls)) as H.
  { apply run_exclusive. left. reflexivity. }
  split; [apply exclusive_not_both|]; exact H.
Qed.

(** C8.  Idempotence: delivering the same batch twice in succession commits
    the state that delivering it once commits, from every starting state; in
    particular a second delivery of a chart batch leaves the chart state as
    the first one made it. *)
Theorem dispatch_idempotent (s : State) (toolCall : LiveServerToolCall) :
  dispatch (dispatch s toolCall) toolCall = dispatch s toolCall.
Proof.
  rewrite !dispatch_written.
  destruct (written toolCall); reflexivity.
Qed.

(** C9.  A notification whose [functionCalls] field is absent makes the
    handler return at once: it completes normally, the state is the state
    before and no timeout is requested, so the mounted component keeps its
    state, its pending timeouts and the replies it has sent. *)
Theorem absent_batch_returns (s : State) (c : Component) :
  let toolCall := {| functionCalls := None |} in
  handle s toolCall =
    (Normal tt, {| env_state := s; env_timeouts := [] |})
  /\ c_state (step c (ToolCall toolCall)) = c_state c
  /\ c_pending (step c (ToolCall toolCall)) = c_pending c
  /\ c_sent (step c (ToolCall toolCall)) = c_sent c.
Proof.
  simpl. repeat split. apply app_nil_r.
Qed.

(** ** Timeouts *)

Lemma handle_normal s toolCall fcs :
  functionCalls toolCall = Some fcs ->
  fst (handle s toolCall) = Normal tt ->
  handle s toolCall =
    (Normal tt,
     {| env_state := dispatch s toolCall;
        env_timeouts := requested toolCall fcs |}).
Proof.
  intros F N.
  destruct (handle_cases s toolCall fcs F) as [H|(chartFc & _ & _ & H)].
  - exact H.
  - rewrite H in N. discriminate N.
Qed.

Lemma replies_requested toolCall fcs :
  functionCalls toolCall = Some fcs ->
  replies (requested toolCall fcs) =
    match fcs with
    | [] => []
    | _ :: _ => [{| functionResponses := Some (map acknowledge fcs) |}]
    end.
Proof.
  intros F. destruct fcs as [|fc rest]; [reflexivity|].
  unfold replies, requested, run_callback. simpl. rewrite F. reflexivity.
Qed.

Lemma drop_own_length {A : Type} (l k : list A) :
  drop (length l) (l ++ k) = k.
Proof. induction l as [|a l IH]; [reflexivity | exact IH]. Qed.

(** A component with nothing pending receives a batch that the handler
    completes: the reply is handed to the client once 200 ms have passed, not
    before, and not again as more time passes. *)
Lemma acknowledged_once c toolCall fcs ms ms' :
  c_pending c = [] ->
  functionCalls toolCall = Some fcs ->
  fst (handle (c_state c) toolCall) = Normal tt ->
  0 <= ms -> 0 <= ms' ->
  sent_by c [ToolCall toolCall; Elapse ms] =
    (if 200 <=? ms then replies (requested toolCall fcs) else [])
  /\ sent_by c [ToolCall toolCall; Elapse ms; Elapse ms'] =
    (if 200 <=? ms + ms' then replies (requested toolCall fcs) else []).
Proof.
  intros P F N Hms Hms'.
  pose proof (handle_normal (c_state c) toolCall fcs F N) as H.
  unfold sent_by, steps. cbn [fold_left step].
  rewrite H, P. cbn [snd env_timeouts env_state app c_sent c_clock c_pending].
  rewrite !Z.max_r by lia.
  rewrite <- app_assoc, !drop_own_length.
  destruct fcs as [|fc rest].
  - cbn. destruct (200 <=? ms), (200 <=? ms + ms'); split; reflexivity.
  - unfold due_by.
    cbn [requested map to_delay to_callback List.filter fst snd negb].
    destruct (Z.leb_spec 200 ms) as [L|L].
    + replace (c_clock c + 200 <=? c_clock c + ms) with true
        by (symmetry; apply Z.leb_le; lia).
      replace (200 <=? ms + ms') with true
        by (symmetry; apply Z.leb_le; lia).
      split; reflexivity.
    + replace (c_clock c + 200 <=? c_clock c + ms) with false
        by (symmetry; apply Z.leb_gt; lia).
      cbn [negb map app List.filter fst snd].
      destruct (Z.leb_spec 200 (ms + ms')) as [L'|L'].
      * replace (c_clock c + 200 <=? c_clock c + ms + ms') with true
          by (symmetry; apply Z.leb_le; lia).
        split; reflexivity.
      * replace (c_clock c + 200 <=? c_clock c + ms + ms') with false
          by (symmetry; apply Z.leb_gt; lia).
        split; reflexivity.
Qed.

(** ** Batches that name neither tool *)

Lemma unrecognized_not_found fcs :
  forallb unrecognized fcs = true ->
  find (name_is chartDeclaration) fcs = None /\
  find (name_is roomInspectionDeclaration) fcs = None.
Proof. apply find_forallb_none. Qed.

Lemma unrecognized_handle s fcs :
  forallb unrecognized fcs = true ->
  handle s {| functionCalls := Some fcs |} =
    (Normal tt,
     {| env_state := s;
        env_timeouts := requested {| functionCalls := Some fcs |} fcs |}).
Proof.
  intros U. destruct (unrecognized_not_found fcs U) as [C R].
  apply (handle_completes s {| functionCalls := Some fcs |} fcs s s).
  - reflexivity.
  - apply (chart_branch_none fcs {| env_state := s; env_timeouts := [] |} C).
  - apply (room_branch_none fcs {| env_state := s; env_timeouts := [] |} R).
Qed.

(** C6.  A batch that is empty, or whose items all carry names other than
    [render_altair] and [inspect_room], is handled without error and leaves
    the chart text and the inspection result as they were; when it is not
    empty, one timeout of 200 ms is requested whose reply holds one
    acknowledgment per item, in order, and a component with nothing else
    pending hands exactly that reply to the client once the delay is over. *)
Theorem unrecognized_batch_ignored (s : State) (fcs : list FunctionCall) :
  forallb unrecognized fcs = true ->
  let toolCall := {| functionCalls := Some fcs |} in
  handle s toolCall =
    (Normal tt,
     {| env_state := s; env_timeouts := requested toolCall fcs |})
  /\ dispatch s toolCall = s
  /\ replies (requested toolCall fcs) =
       match fcs with
       | [] => []
       | _ :: _ => [{| functionResponses := Some (map acknowledge fcs) |}]
       end
  /\ forall c ms,
       c_pending c = [] -> 200 <= ms ->
       c_state (step c (ToolCall toolCall)) = c_state c /\
       sent_by c [ToolCall toolCall; Elapse ms] =
         replies (requested toolCall fcs).
Proof.
  intros U toolCall.
  pose proof (unrecognized_handle s fcs U) as H. fold toolCall in H.
  repeat split.
  - exact H.
  - unfold dispatch. rewrite H. reflexivity.
  - apply replies_requested. reflexivity.
  - cbn [step c_state].
    pose proof (unrecognized_handle (c_state c) fcs U) as Hc.
    fold toolCall in Hc. rewrite Hc. reflexivity.
  - pose proof (unrecognized_handle (c_state c) fcs U) as Hc.
    fold toolCall in Hc.
    destruct (acknowledged_once c toolCall fcs ms 0) as [A _];
      [assumption | reflexivity | rewrite Hc; reflexivity | lia | lia |].
    rewrite A.
    replace (200 <=? ms) with true by (symmetry; apply Z.leb_le; lia).
    reflexivity.
Qed.

Lemma unrecognized_batch_ignored_witness :
  forallb unrecognized [Examples.unknown4] = true
  /\ dispatch (Chart (VStr "{}")) (Examples.batch [Examples.unknown4]) =
       Chart (VStr "{}")
  /\ sent_by (mount Examples.parent)
       [ToolCall (Examples.batch [Examples.unknown4]); Elapse 200] =
       [{| functionResponses :=
             Some [{| fr_response := {| output := {| success := true |} |};
                      fr_id := Some "4"%string;
                      fr_name := Some "unknown_tool"%string |}] |}].
Proof.
  destruct (unrecognized_batch_ignored (Chart (VStr "{}"))
              [Examples.unknown4] eq_refl) as (_ & D & _ & S).
  split; [reflexivity|]. split; [exact D|].
  destruct (S (mount Examples.parent) 200 eq_refl) as [_ A]; [lia|].
  exact A.
Defined.

(** ** Chart batches *)

(** C2, amended.  When the first [render_altair] item of a batch carries an
    argument object whose [json_graph] is a string, and the batch has no
    [inspect_room] item, handling it from any state completes and commits
    the chart state: that string as chart text, the inspection result
    cleared.  The first chart item is the one used, whether it is the only
    one ([others] empty) or is followed by more. *)
Theorem chart_batch_sets_chart (s : State) (fcs : list FunctionCall)
    (chartFc : FunctionCall) (others : list FunctionCall)
    (ref : positive) (props : gmap string value) (text : string) :
  List.filter (name_is chartDeclaration) fcs = chartFc :: others ->
  fc_args chartFc = VObj ref props ->
  props !! "json_graph"%string = Some (VStr text) ->
  List.filter (name_is roomInspectionDeclaration) fcs = [] ->
  let toolCall := {| functionCalls := Some fcs |} in
  fst (handle s toolCall) = Normal tt
  /\ dispatch s toolCall = Chart (VStr text).
Proof.
  intros FC A J FR toolCall.
  apply find_filter_head in FC. apply find_filter_nil in FR.
  assert (get_property (fc_args chartFc) "json_graph" = Normal (VStr text))
    as G by (rewrite A; simpl; rewrite J; reflexivity).
  pose (env0 := fun s0 => {| env_state := s0; env_timeouts := [] |}).
  pose proof (chart_branch_writes fcs chartFc _ (env0 s) FC G) as HC.
  pose proof (room_branch_none fcs (env0 (Chart (VStr text))) FR) as HR.
  pose proof (handle_completes s toolCall fcs _ _ eq_refl HC HR) as H.
  unfold dispatch. rewrite H. split; reflexivity.
Qed.

Lemma chart_batch_sets_chart_witness :
  List.filter (name_is chartDeclaration)
    [Examples.unknown4; Examples.chart1; Examples.chart3] =
    [Examples.chart1; Examples.chart3]
  /\ dispatch (Inspection (fc_args Examples.room2))
       (Examples.batch
          [Examples.unknown4; Examples.chart1; Examples.chart3]) =
     Chart (VStr "{}").
Proof.
  split; [reflexivity|].
  apply (chart_batch_sets_chart (Inspection (fc_args Examples.room2))
           [Examples.unknown4; Examples.chart1; Examples.chart3]
           Examples.chart1 [Examples.chart3] 1
           {[ "json_graph"%string := VStr "{}" ]} "{}");
    reflexivity.
Defined.

(** C2 as stated fails: this batch has exactly one [render_altair] item, with
    a string [json_graph], and an [inspect_room] item after it; the handler
    completes and the state committed is the inspection state, not the chart
    state. *)
Lemma chart_batch_with_inspection_item :
  let fcs := [Examples.chart1; Examples.room2] in
  List.filter (name_is chartDeclaration) fcs = [Examples.chart1]
  /\ get_property (fc_args Examples.chart1) "json_graph" = Normal (VStr "{}")
  /\ fst (handle initial (Examples.batch fcs)) = Normal tt
  /\ dispatch initial (Examples.batch fcs) =
       Inspection (fc_args Examples.room2)
  /\ dispatch initial (Examples.batch fcs) <> Chart (VStr "{}").
Proof.
  repeat split. discriminate.
Qed.

(** ** Arguments are taken as they come *)

(** C10, amended.  Neither branch validates arguments.  When the chart item
    the handler picks, the first in the batch, carries an argument object
    without [json_graph], the chart branch still runs: it writes [undefined]
    as chart text and clears the inspection result, and that is the state
    committed when the batch has no inspection item.  The room branch stores
    the arguments of the inspection item it picks, again the first, exactly
    as they are, whatever they hold, and that is the state committed when
    the batch has no chart item. *)
Theorem arguments_not_validated (fcs : list FunctionCall) (env : Env) :
  (forall chartFc ref props,
     find (name_is chartDeclaration) fcs = Some chartFc ->
     fc_args chartFc = VObj ref props ->
     props !! "json_graph"%string = None ->
     chart_branch fcs env =
       (Normal tt,
        {| env_state := Chart VUndefined;
           env_timeouts := env_timeouts env |})
     /\ (find (name_is roomInspectionDeclaration) fcs = None ->
         dispatch (env_state env) {| functionCalls := Some fcs |} =
           Chart VUndefined))
  /\ (forall roomFc,
        find (name_is roomInspectionDeclaration) fcs = Some roomFc ->
        room_branch fcs env =
          (Normal tt,
           {| env_state := Inspection (fc_args roomFc);
              env_timeouts := env_timeouts env |})
        /\ (find (name_is chartDeclaration) fcs = None ->
            dispatch (env_state env) {| functionCalls := Some fcs |} =
              Inspection (fc_args roomFc))).
Proof.
  split.
  - intros chartFc ref props C A J.
    assert (get_property (fc_args chartFc) "json_graph" = Normal VUndefined)
      as G by (rewrite A; simpl; rewrite J; reflexivity).
    split.
    + apply (chart_branch_writes fcs chartFc VUndefined env C G).
    + intros R. rewrite dispatch_written. unfold written. simpl.
      rewrite C, R, G. reflexivity.
  - intros roomFc R. split.
    + apply (room_branch_writes fcs roomFc env R).
    + intros C. rewrite dispatch_written. unfold written. simpl.
      rewrite C, R. reflexivity.
Qed.

Lemma arguments_not_validated_witness :
  dispatch (Inspection (fc_args Examples.room2))
    (Examples.batch [Examples.chart6]) = Chart VUndefined
  /\ dispatch (Chart (VStr "{}")) (Examples.batch [Examples.room7]) =
       Inspection (VObj 7 {[ "assessment"%string := Examples.number 3 ]}).
Proof.
  split.
  - destruct (arguments_not_validated [Examples.chart6]
                {| env_state := Inspection (fc_args Examples.room2);
                   env_timeouts := [] |}) as [H _].
    destruct (H Examples.chart6 6%positive ∅ eq_refl eq_refl eq_refl)
      as [_ D].
    exact (D eq_refl).
  - destruct (arguments_not_validated [Examples.room7]
                {| env_state := Chart (VStr "{}");
                   env_timeouts := [] |}) as [_ H].
    destruct (H Examples.room7 eq_refl) as [_ D].
    exact (D eq_refl).
Defined.

(** C10 as stated fails: this batch contains a [render_altair] item whose
    arguments lack [json_graph], but it is not the first one.  The chart
    branch runs on the first, and the chart text written is that item's
    text, not [undefined]. *)
Lemma later_chart_item_without_json_graph :
  let fcs := [Examples.chart1; Examples.chart6] in
  let s := Inspection (fc_args Examples.room2) in
  In Examples.chart6 fcs
  /\ name_is chartDeclaration Examples.chart6 = true
  /\ get_property (fc_args Examples.chart6) "json_graph" = Normal VUndefined
  /\ fst (handle s (Examples.batch fcs)) = Normal tt
  /\ dispatch s (Examples.batch fcs) = Chart (VStr "{}")
  /\ jsonString (dispatch s (Examples.batch fcs)) <> VUndefined.
Proof.
  split; [right; left; reflexivity|].
  split; [reflexivity|]. split; [reflexivity|]. split; [reflexivity|].
  split; [reflexivity|]. discriminate.
Qed.

(** ** Inspection batches and the acknowledgment *)

(** When the chart branch completes, a batch with an inspection item commits
    the inspection state, with or without a chart item beside it. *)
Lemma inspection_batch_sets_inspection s fcs roomFc :
  find (name_is roomInspectionDeclaration) fcs = Some roomFc ->
  fst (chart_branch fcs {| env_state := s; env_timeouts := [] |}) =
    Normal tt ->
  handle s {| functionCalls := Some fcs |} =
    (Normal tt,
     {| env_state := Inspection (fc_args roomFc);
        env_timeouts := requested {| functionCalls := Some fcs |} fcs |}).
Proof.
  intros R N.
  pose (env0 := fun s0 => {| env_state := s0; env_timeouts := [] |}).
  destruct (find (name_is chartDeclaration) fcs) as [chartFc|] eqn:C.
  - destruct (get_property (fc_args chartFc) "json_graph") as [str|e] eqn:G.
    + pose proof (chart_branch_writes fcs chartFc str (env0 s) C G) as HC.
      pose proof (room_branch_writes fcs roomFc (env0 (Chart str)) R) as HR.
      exact (handle_completes s {| functionCalls := Some fcs |} fcs _ _
              eq_refl HC HR).
    + rewrite (chart_branch_throws fcs chartFc e
                 {| env_state := s; env_timeouts := [] |} C G) in N.
      discriminate N.
  - pose proof (chart_branch_none fcs (env0 s) C) as HC.
    pose proof (room_branch_writes fcs roomFc (env0 s) R) as HR.
    exact (handle_completes s {| functionCalls := Some fcs |} fcs _ _
              eq_refl HC HR).
Qed.

(** The chart branch completes unless the chart item it picks has
    [undefined] or [null] for arguments. *)
Lemma chart_branch_completes fcs env :
  (forall chartFc,
     find (name_is chartDeclaration) fcs = Some chartFc ->
     fc_args chartFc <> VUndefined /\ fc_args chartFc <> VNull) ->
  fst (chart_branch fcs env) = Normal tt.
Proof.
  intros H.
  destruct (find (name_is chartDeclaration) fcs) as [chartFc|] eqn:C.
  - destruct (H chartFc eq_refl) as [U N].
    destruct (get_property (fc_args chartFc) "json_graph") as [str|e] eqn:G.
    + rewrite (chart_branch_writes fcs chartFc str env C G). reflexivity.
    + destruct (fc_args chartFc); simpl in G; congruence.
  - rewrite (chart_branch_none fcs env C). reflexivity.
Qed.


(** C3 at a failing input.  The batch holds a [render_altair] item whose
    [args] field is absent and exactly one [inspect_room] item with
    [assessment] and [score].  Reading [json_graph] throws before the room
    branch is reached: the chart state held before stays, and the inspection
    state is not committed. *)
Theorem inspection_item_beside_argless_chart :
  let fcs := [Examples.chart5; Examples.room2] in
  let s := Chart (VStr "{}") in
  List.filter (name_is roomInspectionDeclaration) fcs = [Examples.room2]
  /\ handle s (Examples.batch fcs) =
       (Abrupt TypeError, {| env_state := s; env_timeouts := [] |})
  /\ dispatch s (Examples.batch fcs) = s
  /\ dispatch s (Examples.batch fcs) <> Inspection (fc_args Examples.room2).
Proof.
  repeat split. discriminate.
Qed.

(** C4 at a failing input.  The batch holds one item, a [render_altair] call
    whose [args] field is absent.  The handler throws at the read of
    [json_graph], before line 136: no timeout is requested, and however long
    the component waits nothing is handed to the client. *)
Theorem argless_chart_batch_unacknowledged :
  let toolCall := Examples.batch [Examples.chart5] in
  handle initial toolCall =
    (Abrupt TypeError, {| env_state := initial; env_timeouts := [] |})
  /\ c_pending (step (mount Examples.parent) (ToolCall toolCall)) = []
  /\ forall ms,
       c_sent (steps (mount Examples.parent)
                 [ToolCall toolCall; Elapse ms]) = [].
Proof.
  repeat split.
Qed.

(** C5 at a failing input.  The batch holds an [inspect_room] item and a
    [render_altair] item whose [args] field is absent.  The chart branch runs
    first and throws, so the inspection branch never runs: the state stays
    the initial one, neither chart nor inspection. *)
Theorem mixed_batch_with_argless_chart :
  let fcs := [Examples.room2; Examples.chart5] in
  find (name_is chartDeclaration) fcs = Some Examples.chart5
  /\ find (name_is roomInspectionDeclaration) fcs = Some Examples.room2
  /\ handle initial (Examples.batch fcs) =
       (Abrupt TypeError, {| env_state := initial; env_timeouts := [] |})
  /\ dispatch initial (Examples.batch fcs) = initial
  /\ inspection_active (dispatch initial (Examples.batch fcs)) = false.
Proof.
  repeat split.
Qed.

(** ** Notifying the parent *)

Lemma mount_settled p : settled p (mount p).
Proof. repeat split. left. reflexivity. Qed.

Lemma step_settled p c ev : settled p c -> settled p (step c ev).
Proof.
  intros (P & D & E). destruct ev as [toolCall|ms].
  - repeat split; cbn [step c_props c_deps c_state].
    + exact P.
    + rewrite P. reflexivity.
    + apply (dispatch_exclusive (c_state c) toolCall E).
  - repeat split; assumption.
Qed.

Lemma steps_settled p evs :
  forall c, settled p c -> settled p (steps c evs).
Proof.
  induction evs as [|ev rest IH]; intros c H; simpl.
  - exact H.
  - apply IH. apply step_settled. exact H.
Qed.

Lemma notified_by_toolcall c toolCall :
  notified_by c (ToolCall toolCall) =
    after_commit (c_deps c) (c_props c) (dispatch (c_state c) toolCall).
Proof.
  unfold notified_by. cbn [step c_notified]. apply drop_own_length.
Qed.

(** In a settled component whose parent passed a callback, a tool call
    notifies exactly when the inspection result is another value than
    before, with the presence of the new one. *)
Lemma settled_notification f c toolCall :
  settled {| onRoomInspectionChange := Some f |} c ->
  notified_by c (ToolCall toolCall) =
    if same_value (roomResult (c_state c))
         (roomResult (dispatch (c_state c) toolCall))
    then []
    else [(f, inspection_active (dispatch (c_state c) toolCall))].
Proof.
  intros (P & D & _). rewrite notified_by_toolcall, D, P.
  unfold after_commit, deps_unchanged, deps_of, notify_effect. simpl.
  rewrite Pos.eqb_refl, andb_true_r. reflexivity.
Qed.

Lemma falsy_valid_child v : truthy v = false -> valid_child v = true.
Proof. destruct v; simpl; congruence. Qed.

(** A state without an inspection result is always committed: the tree has
    no inspector block, so nothing in it can throw or be refused. *)
Lemma commits_without_result str2num s :
  truthy (roomResult s) = false -> commits str2num s = true.
Proof.
  intros R. unfold commits, render. rewrite R.
  unfold accepted, and_element. cbn [v_vega v_inspector v_default].
  cbn [slot_accepted]. rewrite (falsy_valid_child _ R).
  destruct (truthy (jsonString s)) eqn:J; simpl.
  - reflexivity.
  - rewrite (falsy_valid_child _ J). reflexivity.
Qed.

(** Two results React does not commit: a score whose own [toString] makes
    the comparison of line 197 throw, and an assessment that is an object,
    refused as a child at line 208. *)
Example results_not_committed :
  commits (fun _ => S754_nan)
    (Inspection
       (VObj 1
          {[ "score"%string :=
               VObj 2 {[ "toString"%string := VStr "8" ]} ]})) = false
  /\ commits (fun _ => S754_nan)
       (Inspection
          (VObj 1
             {[ "assessment"%string :=
                  VObj 2 {[ "text"%string := VStr "Tidy" ]} ]})) = false.
Proof. split; reflexivity. Qed.

(** C7.  With a callback passed by the parent, mounting reports [false]; a
    tool call that takes a mounted component from no inspection result to
    one, and whose new state React commits, reports [true]; one that takes
    it from an inspection result to none reports [false], as when a chart
    arrives; and one that takes it from a shown chart to a shown chart
    reports nothing.  In the last two cases, as on mounting, the new state
    has no inspector block and is always committed. *)
Theorem inspection_presence_notified (str2num : string -> spec_float)
    (f : positive) (evs : list Event) (toolCall : LiveServerToolCall) :
  let p := {| onRoomInspectionChange := Some f |} in
  let c := steps (mount p) evs in
  let c' := step c (ToolCall toolCall) in
  (c_notified (mount p) = [(f, false)]
   /\ commits str2num (c_state (mount p)) = true)
  /\ (inspection_active (c_state c) = false ->
      inspection_active (c_state c') = true ->
      commits str2num (c_state c') = true ->
      notified_by c (ToolCall toolCall) = [(f, true)])
  /\ (inspection_active (c_state c) = true ->
      inspection_active (c_state c') = false ->
      notified_by c (ToolCall toolCall) = [(f, false)]
      /\ commits str2num (c_state c') = true)
  /\ (chart_active (c_state c) = true ->
      chart_active (c_state c') = true ->
      notified_by c (ToolCall toolCall) = []
      /\ commits str2num (c_state c') = true).
Proof.
  intros p c c'.
  assert (settled p c) as S by (apply steps_settled, mount_settled).
  assert (settled p c') as S' by (apply step_settled; exact S).
  pose proof (settled_notification f c toolCall S) as N.
  change (dispatch (c_state c) toolCall) with (c_state c') in N.
  split; [split; reflexivity|]. split; [|split].
  - intros A B _. rewrite N.
    destruct (same_value (roomResult (c_state c)) (roomResult (c_state c')))
      eqn:V.
    + apply same_value_truthy in V. unfold inspection_active in A, B.
      congruence.
    + rewrite B. reflexivity.
  - intros A B. split; [|apply commits_without_result; exact B].
    rewrite N.
    destruct (same_value (roomResult (c_state c)) (roomResult (c_state c')))
      eqn:V.
    + apply same_value_truthy in V. unfold inspection_active in A, B.
      congruence.
    + rewrite B. reflexivity.
  - intros A B.
    destruct S as (_ & _ & E), S' as (_ & _ & E').
    pose proof (exclusive_chart_active _ E A) as R.
    pose proof (exclusive_chart_active _ E' B) as R'.
    split; [|apply commits_without_result; rewrite R'; reflexivity].
    rewrite N, R, R'. reflexivity.
Qed.

Lemma inspection_presence_notified_witness :
  let p := Examples.parent in
  notified_by (mount p) (ToolCall (Examples.batch [Examples.room2])) =
    [(1%positive, true)]
  /\ notified_by
       (steps (mount p) [ToolCall (Examples.batch [Examples.room2])])
       (ToolCall (Examples.batch [Examples.chart3])) = [(1%positive, false)]
  /\ notified_by
       (steps (mount p) [ToolCall (Examples.batch [Examples.chart1])])
       (ToolCall (Examples.batch [Examples.chart3])) = [].
Proof.
  intros p. split; [|split].
  - destruct (inspection_presence_notified (fun _ => S754_nan) 1 []
                (Examples.batch [Examples.room2])) as (_ & H & _).
    apply H; reflexivity.
  - destruct (inspection_presence_notified (fun _ => S754_nan) 1
                [ToolCall (Examples.batch [Examples.room2])]
                (Examples.batch [Examples.chart3])) as (_ & _ & H & _).
    apply H; reflexivity.
  - destruct (inspection_presence_notified (fun _ => S754_nan) 1
                [ToolCall (Examples.batch [Examples.chart1])]
                (Examples.batch [Examples.chart3])) as (_ & _ & _ & H).
    apply H; reflexivity.
Defined.

(** ** The scenarios of section 8 *)

Example scenario_1 :
  dispatch initial (Examples.batch [Examples.chart1]) = Chart (VStr "{}")
  /\ sent_by (mount Examples.parent)
       [ToolCall (Examples.batch [Examples.chart1]); Elapse 200] =
     [{| functionResponses := Some [acknowledge Examples.chart1] |}].
Proof. split; reflexivity. Qed.

Example scenario_2 :
  dispatch initial (Examples.batch [Examples.room2]) =
    Inspection (fc_args Examples.room2)
  /\ c_notified
       (steps (mount Examples.parent)
          [ToolCall (Examples.batch [Examples.room2])]) =
     [(1%positive, false); (1%positive, true)].
Proof. split; reflexivity. Qed.

Example scenario_3 :
  c_state
    (steps (mount Examples.parent)
       [ToolCall (Examples.batch [Examples.room2]);
        ToolCall (Examples.batch [Examples.chart3])]) =
    Chart (VStr "{...}")
  /\ c_notified
       (steps (mount Examples.parent)
          [ToolCall (Examples.batch [Examples.room2]);
           ToolCall (Examples.batch [Examples.chart3])]) =
     [(1%positive, false); (1%positive, true); (1%positive, false)].
Proof. split; reflexivity. Qed.

(** * Further properties of the component *)

(** ** Completion of the handler *)

Lemma handle_by_completion s toolCall :
  handle s toolCall =
    if completes toolCall
    then (Normal tt,
          {| env_state := dispatch s toolCall;
             env_timeouts :=
               match functionCalls toolCall with
               | Some fcs => requested toolCall fcs
               | None => []
               end |})
    else (Abrupt TypeError, {| env_state := s; env_timeouts := [] |}).
Proof.
  destruct (functionCalls toolCall) as [fcs|] eqn:F.
  2:{ unfold completes, dispatch, handle, onToolCall. rewrite F.
      reflexivity. }
  destruct (handle_cases s toolCall fcs F) as [H|(chartFc & C & G & H)].
  - destruct (completes toolCall) eqn:K; [exact H|].
    unfold completes in K. rewrite F in K.
    destruct (find (name_is chartDeclaration) fcs) as [chartFc|] eqn:C;
      [|discriminate K].
    destruct (get_property (fc_args chartFc) "json_graph") as [str|e] eqn:G;
      [discriminate K|].
    pose proof (chart_branch_throws fcs chartFc e
                  {| env_state := s; env_timeouts := [] |} C G) as HC.
    rewrite (handle_throws s toolCall fcs e F HC) in H. discriminate H.
  - unfold completes. rewrite F, C, G. exact H.
Qed.

Lemma completes_normal s toolCall :
  fst (handle s toolCall) = Normal tt <-> completes toolCall = true.
Proof.
  rewrite handle_by_completion.
  destruct (completes toolCall); simpl; split; congruence.
Qed.

Lemma recognized_found fcs :
  existsb (fun fc => negb (unrecognized fc)) fcs = true ->
  find (name_is chartDeclaration) fcs <> None \/
  find (name_is roomInspectionDeclaration) fcs <> None.
Proof.
  induction fcs as [|fc rest IH]; simpl; [discriminate|].
  unfold unrecognized at 1.
  destruct (name_is chartDeclaration fc); [left; discriminate|].
  destruct (name_is roomInspectionDeclaration fc); [right; discriminate|].
  exact IH.
Qed.

(** X1.  Replacement, never merge: when a batch names one of the two tools
    and the handler completes, the state committed does not depend on the
    state before. *)
Theorem completed_call_replaces_state (s1 s2 : State)
    (toolCall : LiveServerToolCall) (fcs : list FunctionCall) :
  functionCalls toolCall = Some fcs ->
  existsb (fun fc => negb (unrecognized fc)) fcs = true ->
  fst (handle s1 toolCall) = Normal tt ->
  dispatch s1 toolCall = dispatch s2 toolCall.
Proof.
  intros F E N. apply completes_normal in N.
  rewrite !dispatch_written.
  assert (exists s', written toolCall = Some s') as [s' W].
  { unfold written. unfold completes in N. rewrite F in N |- *.
    destruct (recognized_found fcs E) as [C|R].
    - destruct (find (name_is chartDeclaration) fcs) as [chartFc|];
        [|congruence].
      destruct (get_property (fc_args chartFc) "json_graph");
        [|discriminate N].
      destruct (find (name_is roomInspectionDeclaration) fcs); eauto.
    - destruct (find (name_is roomInspectionDeclaration) fcs) as [roomFc|];
        [|congruence].
      destruct (find (name_is chartDeclaration) fcs) as [chartFc|]; eauto.
      destruct (get_property (fc_args chartFc) "json_graph");
        [eauto|discriminate N]. }
  rewrite W. reflexivity.
Qed.

Lemma completed_call_replaces_state_witness :
  dispatch (Chart (VStr "{...}")) (Examples.batch [Examples.room2]) =
  dispatch initial (Examples.batch [Examples.room2]).
Proof.
  apply (completed_call_replaces_state _ _ _ [Examples.room2]);
    reflexivity.
Defined.

(** X2.  The handler's one failure: it throws exactly when the first
    [render_altair] item of the batch has [undefined] or [null] for
    arguments; what it throws is a [TypeError], and it has then written no
    state and requested no timeout.  In every other case it completes. *)
Theorem handler_throws_exactly_when (s : State)
    (toolCall : LiveServerToolCall) :
  (fst (handle s toolCall) = Abrupt TypeError <->
   exists fcs chartFc,
     functionCalls toolCall = Some fcs /\
     find (name_is chartDeclaration) fcs = Some chartFc /\
     (fc_args chartFc = VUndefined \/ fc_args chartFc = VNull))
  /\ (fst (handle s toolCall) = Normal tt \/
      handle s toolCall =
        (Abrupt TypeError, {| env_state := s; env_timeouts := [] |})).
Proof.
  rewrite handle_by_completion. split.
  - unfold completes.
    destruct (functionCalls toolCall) as [fcs|] eqn:F.
    2:{ simpl. split; [discriminate|]. intros (? & ? & ? & _). congruence. }
    destruct (find (name_is chartDeclaration) fcs) as [chartFc|] eqn:C.
    2:{ simpl. split; [discriminate|].
        intros (fcs' & c & F' & C' & _). congruence. }
    destruct (get_property (fc_args chartFc) "json_graph") as [str|e] eqn:G;
      simpl; split.
    + discriminate.
    + intros (fcs' & c & F' & C' & A).
      assert (c = chartFc) by congruence. subst c.
      destruct A as [A|A]; rewrite A in G; discriminate G.
    + intros _. exists fcs, chartFc.
      split; [reflexivity|]. split; [exact C|].
      revert G. destruct (fc_args chartFc); simpl; intros G;
        try discriminate G; auto.
    + reflexivity.
  - destruct (completes toolCall); [left|right]; reflexivity.
Qed.

Lemma handler_throws_exactly_when_witness :
  fst (handle initial (Examples.batch [Examples.unknown4; Examples.chart5]))
    = Abrupt TypeError.
Proof.
  apply (proj1 (handler_throws_exactly_when initial
                  (Examples.batch [Examples.unknown4; Examples.chart5]))).
  exists [Examples.unknown4; Examples.chart5], Examples.chart5.
  split; [reflexivity|]. split; [reflexivity|]. left. reflexivity.
Defined.

(** ** Names *)

Lemma name_is_eq decl fc :
  name_is decl fc = true <-> fc_name fc = Some (decl_name decl).
Proof.
  unfold name_is. destruct (fc_name fc) as [n|].
  - rewrite String.eqb_eq. split; congruence.
  - split; discriminate.
Qed.

(** X3.  The two searches never pick the same item: the item found for the
    chart is named [render_altair], the one found for the room is named
    [inspect_room], and they differ. *)
Theorem picked_items_differ (fcs : list FunctionCall)
    (chartFc roomFc : FunctionCall) :
  find (name_is chartDeclaration) fcs = Some chartFc ->
  find (name_is roomInspectionDeclaration) fcs = Some roomFc ->
  fc_name chartFc = Some "render_altair"%string
  /\ fc_name roomFc = Some "inspect_room"%string
  /\ chartFc <> roomFc.
Proof.
  intros C R.
  apply find_some in C as [_ C]. apply find_some in R as [_ R].
  apply name_is_eq in C. apply name_is_eq in R. simpl in C, R.
  repeat split; try assumption.
  intros E. subst roomFc. rewrite C in R. discriminate R.
Qed.

Lemma picked_items_differ_witness :
  Examples.chart1 <> Examples.room2.
Proof.
  apply (picked_items_differ [Examples.room2; Examples.chart1]
           Examples.chart1 Examples.room2); reflexivity.
Defined.

(** X4.  The handler reacts to exactly the functions the session is
    configured with: an item's name is one the handler looks for if and only
    if it is the name of a function declared in the configured tools. *)
Theorem handler_reacts_to_declared_names (fc : FunctionCall) :
  unrecognized fc = false <->
  exists decl,
    In decl (declared config_tools) /\ fc_name fc = Some (decl_name decl).
Proof.
  unfold unrecognized. split.
  - intros H.
    destruct (name_is chartDeclaration fc) eqn:C.
    + exists chartDeclaration. split; [left; reflexivity|].
      apply name_is_eq. exact C.
    + destruct (name_is roomInspectionDeclaration fc) eqn:R;
        [|discriminate H].
      exists roomInspectionDeclaration.
      split; [right; left; reflexivity|]. apply name_is_eq. exact R.
  - intros (decl & [D|[D|[]]] & N); subst decl;
      apply name_is_eq in N; rewrite N.
    + reflexivity.
    + apply andb_false_r.
Qed.

Lemma handler_reacts_to_declared_names_witness :
  unrecognized Examples.room7 = false.
Proof.
  apply (proj2 (handler_reacts_to_declared_names Examples.room7)).
  exists roomInspectionDeclaration.
  split; [right; left; reflexivity | reflexivity].
Defined.

(** ** Every reply is sent once, in order *)


Lemma handle_timeouts s toolCall :
  env_timeouts (snd (handle s toolCall)) = [] \/
  env_timeouts (snd (handle s toolCall)) =
    [{| to_callback := SendToolResponse toolCall; to_delay := 200 |}].
Proof.
  rewrite handle_by_completion.
  destruct (completes toolCall); [|left; reflexivity].
  destruct (functionCalls toolCall) as [[|fc rest]|]; simpl; auto.
Qed.

Lemma owed_timeouts s toolCall :
  replies (env_timeouts (snd (handle s toolCall))) = owed toolCall.
Proof.
  rewrite handle_by_completion. unfold owed.
  destruct (functionCalls toolCall) as [[|fc rest]|] eqn:F;
    destruct (completes toolCall); try reflexivity.
  simpl. unfold replies, run_callback. simpl. rewrite F. reflexivity.
Qed.

Lemma step_toolcall_pending_replies c toolCall :
  pending_replies (step c (ToolCall toolCall)) =
    pending_replies c ++ owed toolCall.
Proof.
  unfold pending_replies. cbn [step c_pending].
  rewrite List.map_app, List.map_map. cbn [snd].
  rewrite <- (owed_timeouts (c_state c) toolCall). reflexivity.
Qed.

Lemma ascending_snoc bound dues :
  ascending bound dues -> ascending bound (dues ++ [bound]).
Proof.
  induction dues as [|d rest IH]; simpl.
  - intros _. repeat split; [lia | constructor].
  - intros (B & F & A). split; [exact B|]. split; [|exact (IH A)].
    apply List.Forall_app. split; [exact F|].
    constructor; [exact B | constructor].
Qed.

Lemma ascending_bounded bound dues :
  ascending bound dues -> List.Forall (fun d => d <= bound) dues.
Proof.
  induction dues as [|d rest IH]; simpl; [constructor|].
  intros (B & _ & A). constructor; [exact B | exact (IH A)].
Qed.

Lemma Forall_fst_filter (P : Z -> Prop) (f : Z * Callback -> bool) l :
  List.Forall P (map fst l) -> List.Forall P (map fst (List.filter f l)).
Proof.
  induction l as [|a l IH]; simpl; [constructor|].
  intros H. inversion H as [|x xs Hx Hxs]; subst.
  destruct (f a); simpl; [constructor; [exact Hx|]|]; exact (IH Hxs).
Qed.

Lemma ascending_filter (f : Z * Callback -> bool) bound bound' l :
  bound <= bound' ->
  ascending bound (map fst l) ->
  ascending bound' (map fst (List.filter f l)).
Proof.
  intros L. induction l as [|a l IH]; simpl; [auto|].
  intros (B & F & A). destruct (f a); simpl; [|exact (IH A)].
  split; [lia|]. split; [|exact (IH A)].
  apply Forall_fst_filter. exact F.
Qed.

Lemma filter_later now d l :
  now < d ->
  List.Forall (Z.le d) (map fst l) ->
  List.filter (due_by now) l = [] /\
  List.filter (fun t => negb (due_by now t)) l = l.
Proof.
  intros L. induction l as [|a l IH]; [auto|].
  intros H. inversion H as [|x xs Hx Hxs]; subst.
  destruct (IH Hxs) as [E1 E2].
  assert (due_by now a = false) as D
    by (unfold due_by; apply Z.leb_gt; lia).
  cbn [List.filter]. rewrite D. cbn [negb]. rewrite E2.
  split; [exact E1 | reflexivity].
Qed.

(** Timeouts in due order fire as a prefix: splitting the pending list into
    the due and the not yet due keeps its order. *)
Lemma filter_due_split now bound l :
  ascending bound (map fst l) ->
  List.filter (due_by now) l ++
  List.filter (fun t => negb (due_by now t)) l = l.
Proof.
  induction l as [|a l IH]; [reflexivity|].
  intros (_ & F & A). cbn [List.filter].
  destruct (due_by now a) eqn:D; cbn [negb].
  - simpl. f_equal. exact (IH A).
  - unfold due_by in D. apply Z.leb_gt in D.
    destruct (filter_later now (fst a) l D F) as [E1 E2].
    rewrite E1, E2. reflexivity.
Qed.

Lemma filter_all_due now l :
  List.Forall (fun d => d <= now) (map fst l) ->
  List.filter (fun t => negb (due_by now t)) l = [].
Proof.
  induction l as [|a l IH]; [reflexivity|].
  intros H. inversion H as [|x xs Hx Hxs]; subst.
  assert (due_by now a = true) as D
    by (unfold due_by; apply Z.leb_le; lia).
  cbn [List.filter]. rewrite D. cbn [negb]. exact (IH Hxs).
Qed.

Lemma mount_pending_ordered p : pending_ordered (mount p).
Proof. split; simpl; [constructor | exact I]. Qed.

Lemma step_pending_ordered c ev :
  pending_ordered c -> pending_ordered (step c ev).
Proof.
  intros [N A]. destruct ev as [toolCall|ms].
  - unfold pending_ordered. cbn [step c_clock c_pending].
    destruct (handle_timeouts (c_state c) toolCall) as [T|T]; rewrite T.
    + simpl. rewrite app_nil_r. split; assumption.
    + simpl. split.
      * apply List.Forall_app. split; [exact N|].
        constructor; [simpl; lia | constructor].
      * rewrite List.map_app. simpl. apply ascending_snoc. exact A.
  - unfold pending_ordered. cbn [step c_clock c_pending]. split.
    + apply List.Forall_forall. intros t Ht.
      apply List.filter_In in Ht as [_ Ht]. unfold due_by in Ht.
      apply negb_true_iff, Z.leb_gt in Ht. exact Ht.
    + apply (ascending_filter _ (c_clock c + 200)); [lia | exact A].
Qed.

Lemma steps_pending_ordered evs :
  forall c, pending_ordered c -> pending_ordered (steps c evs).
Proof.
  induction evs as [|ev rest IH]; intros c H; simpl; [exact H|].
  apply IH, step_pending_ordered, H.
Qed.

Lemma step_conserves c ev :
  pending_ordered c ->
  c_sent (step c ev) ++ pending_replies (step c ev) =
    (c_sent c ++ pending_replies c) ++ owed_by ev.
Proof.
  intros [_ A]. destruct ev as [toolCall|ms].
  - rewrite step_toolcall_pending_replies. cbn [step c_sent owed_by].
    apply app_assoc.
  - unfold pending_replies. cbn [step c_sent c_pending owed_by].
    rewrite app_nil_r, <- app_assoc, <- List.map_app.
    rewrite (filter_due_split _ (c_clock c + 200) _ A). reflexivity.
Qed.

Lemma steps_app c evs evs' :
  steps c (evs ++ evs') = steps (steps c evs) evs'.
Proof. apply fold_left_app. Qed.

Lemma steps_conserve evs :
  forall c,
    pending_ordered c ->
    c_sent (steps c evs) ++ pending_replies (steps c evs) =
      (c_sent c ++ pending_replies c) ++ flat_map owed_by evs.
Proof.
  induction evs as [|ev rest IH]; intros c H; simpl.
  - rewrite app_nil_r. reflexivity.
  - rewrite (IH (step c ev) (step_pending_ordered c ev H)).
    rewrite (step_conserves c ev H). rewrite <- app_assoc. reflexivity.
Qed.

(** X6.  No reply is lost, repeated or reordered: at every moment in the
    life of a mounted component, the replies already handed to the client
    followed by those still waiting on a timeout are exactly one reply per
    non-empty batch that the handler completed, in the order the batches
    arrived. *)
Theorem replies_conserved (p : AltairProps) (evs : list Event) :
  c_sent (steps (mount p) evs) ++ pending_replies (steps (mount p) evs) =
    flat_map owed_by evs.
Proof.
  rewrite (steps_conserve evs (mount p) (mount_pending_ordered p)).
  reflexivity.
Qed.

(** X7.  Nothing stays pending for more than 200 ms: once 200 ms or more
    have passed in one stretch, every reply owed so far has been handed to
    the client and no timeout is left. *)
Theorem replies_all_sent_after_delay (p : AltairProps) (evs : list Event)
    (ms : Z) :
  200 <= ms ->
  c_pending (steps (mount p) (evs ++ [Elapse ms])) = []
  /\ c_sent (steps (mount p) (evs ++ [Elapse ms])) = flat_map owed_by evs.
Proof.
  intros L.
  pose proof (steps_pending_ordered evs (mount p) (mount_pending_ordered p))
    as [_ A].
  assert (c_pending (steps (mount p) (evs ++ [Elapse ms])) = []) as P.
  { rewrite steps_app. unfold steps at 1. cbn [fold_left step c_pending].
    apply filter_all_due.
    apply ascending_bounded in A.
    eapply List.Forall_impl; [|exact A]. simpl. intros d Hd. lia. }
  split; [exact P|].
  pose proof (steps_conserve (evs ++ [Elapse ms]) (mount p)
                (mount_pending_ordered p)) as C.
  cbn [mount c_sent c_pending pending_replies app] in C.
  unfold pending_replies in C. rewrite P in C. simpl in C.
  rewrite app_nil_r, List.flat_map_app in C. simpl in C.
  rewrite app_nil_r in C. exact C.
Qed.

Lemma replies_all_sent_after_delay_witness :
  c_sent
    (steps (mount Examples.parent)
       ([ToolCall (Examples.batch [Examples.room2]);
         Elapse 150;
         ToolCall (Examples.batch [Examples.chart5]);
         ToolCall (Examples.batch [Examples.chart1])] ++ [Elapse 200])) =
    [{| functionResponses := Some [acknowledge Examples.room2] |};
     {| functionResponses := Some [acknowledge Examples.chart1] |}].
Proof.
  apply (replies_all_sent_after_delay Examples.parent
           [ToolCall (Examples.batch [Examples.room2]);
            Elapse 150;
            ToolCall (Examples.batch [Examples.chart5]);
            ToolCall (Examples.batch [Examples.chart1])] 200).
  lia.
Defined.

Lemma elapse_nothing_pending waits :
  forall c,
    c_pending c = [] ->
    c_sent (steps c (map Elapse waits)) = c_sent c.
Proof.
  induction waits as [|w rest IH]; intros c P; [reflexivity|].
  cbn [map steps fold_left]. fold (steps (step c (Elapse w)) (map Elapse rest)).
  rewrite IH; cbn [step c_sent c_pending]; rewrite P; simpl.
  - apply app_nil_r.
  - reflexivity.
Qed.

Lemma waits_total_nonneg waits :
  List.Forall (Z.le 0) waits -> 0 <= fold_right Z.add 0 waits.
Proof.
  induction 1 as [|w rest Hw _ IH]; simpl; lia.
Qed.

Lemma elapse_one_pending waits :
  forall c d cb,
    List.Forall (Z.le 0) waits ->
    c_pending c = [(d, cb)] ->
    c_clock c < d ->
    c_sent (steps c (map Elapse waits)) =
      c_sent c ++
      (if d <=? c_clock c + fold_right Z.add 0 waits
       then [run_callback cb] else []).
Proof.
  induction waits as [|w rest IH]; intros c d cb W P L.
  - simpl. replace (d <=? c_clock c + 0) with false
      by (symmetry; apply Z.leb_gt; lia).
    symmetry. apply app_nil_r.
  - inversion W as [|x xs Hw Hrest]; subst.
    pose proof (waits_total_nonneg rest Hrest) as T.
    cbn [map steps fold_left fold_right].
    fold (steps (step c (Elapse w)) (map Elapse rest)).
    destruct (Z.leb_spec d (c_clock c + w)) as [D|D].
    + rewrite elapse_nothing_pending.
      * cbn [step c_sent]. rewrite P. cbn [List.filter]. unfold due_by.
        cbn [fst]. rewrite Z.max_r by lia.
        replace (d <=? c_clock c + w) with true
          by (symmetry; apply Z.leb_le; lia).
        replace (d <=? c_clock c + (w + fold_right Z.add 0 rest)) with true
          by (symmetry; apply Z.leb_le; lia).
        reflexivity.
      * cbn [step c_pending]. rewrite P. cbn [List.filter]. unfold due_by.
        cbn [fst]. rewrite Z.max_r by lia.
        replace (d <=? c_clock c + w) with true
          by (symmetry; apply Z.leb_le; lia).
        reflexivity.
    + assert (c_pending (step c (Elapse w)) = [(d, cb)]) as P'.
      { cbn [step c_pending]. rewrite P. cbn [List.filter]. unfold due_by.
        cbn [fst]. rewrite Z.max_r by lia.
        replace (d <=? c_clock c + w) with false
          by (symmetry; apply Z.leb_gt; lia).
        reflexivity. }
      assert (c_clock (step c (Elapse w)) = c_clock c + w) as K
        by (cbn [step c_clock]; rewrite Z.max_r by lia; reflexivity).
      rewrite (IH (step c (Elapse w)) d cb Hrest P') by lia.
      rewrite K. cbn [step c_sent]. rewrite P. cbn [List.filter].
      unfold due_by. cbn [fst]. rewrite Z.max_r by lia.
      replace (d <=? c_clock c + w) with false
        by (symmetry; apply Z.leb_gt; lia).
      cbn [map]. rewrite app_nil_r.
      replace (c_clock c + w + fold_right Z.add 0 rest)
        with (c_clock c + (w + fold_right Z.add 0 rest)) by lia.
      reflexivity.
Qed.

(** X8.  The delay is kept however time is sliced: a component with nothing
    pending that receives a batch and then lets time pass in any number of
    steps has handed the batch's reply to the client if and only if the
    steps add up to 200 ms or more, and then exactly once. *)
Theorem reply_waits_for_delay (c : Component)
    (toolCall : LiveServerToolCall) (waits : list Z) :
  c_pending c = [] ->
  List.Forall (Z.le 0) waits ->
  sent_by c (ToolCall toolCall :: map Elapse waits) =
    if 200 <=? fold_right Z.add 0 waits then owed toolCall else [].
Proof.
  intros P W. unfold sent_by.
  cbn [steps fold_left].
  fold (steps (step c (ToolCall toolCall)) (map Elapse waits)).
  assert (c_sent (step c (ToolCall toolCall)) = c_sent c) as S
    by reflexivity.
  assert (c_clock (step c (ToolCall toolCall)) = c_clock c) as K
    by reflexivity.
  pose proof (owed_timeouts (c_state c) toolCall) as O.
  destruct (handle_timeouts (c_state c) toolCall) as [T|T].
  - rewrite T in O. simpl in O. rewrite <- O.
    rewrite elapse_nothing_pending.
    + rewrite S. rewrite <- (app_nil_r (c_sent c)) at 2.
      rewrite drop_own_length.
      destruct (200 <=? fold_right Z.add 0 waits); reflexivity.
    + cbn [step c_pending]. rewrite P, T. reflexivity.
  - rewrite T in O. unfold replies in O. simpl in O. rewrite <- O.
    rewrite (elapse_one_pending waits _ (c_clock c + 200)
               (SendToolResponse toolCall) W).
    + rewrite S, K, drop_own_length.
      destruct (Z.leb_spec 200 (fold_right Z.add 0 waits)) as [L|L].
      * replace (c_clock c + 200 <=? c_clock c + fold_right Z.add 0 waits)
          with true by (symmetry; apply Z.leb_le; lia).
        reflexivity.
      * replace (c_clock c + 200 <=? c_clock c + fold_right Z.add 0 waits)
          with false by (symmetry; apply Z.leb_gt; lia).
        reflexivity.
    + cbn [step c_pending]. rewrite P, T. reflexivity.
    + rewrite K. lia.
Qed.

Lemma reply_waits_for_delay_witness :
  sent_by (mount Examples.parent)
    (ToolCall (Examples.batch [Examples.chart1]) ::
       map Elapse [90; 90]) = []
  /\ sent_by (mount Examples.parent)
       (ToolCall (Examples.batch [Examples.chart1]) ::
          map Elapse [90; 90; 20; 500]) =
     [{| functionResponses := Some [acknowledge Examples.chart1] |}].
Proof.
  split.
  - apply (reply_waits_for_delay (mount Examples.parent)
             (Examples.batch [Examples.chart1]) [90; 90]).
    + reflexivity.
    + repeat constructor; lia.
  - apply (reply_waits_for_delay (mount Examples.parent)
             (Examples.batch [Examples.chart1]) [90; 90; 20; 500]).
    + reflexivity.
    + repeat constructor; lia.
Defined.

(** ** What the parent is told *)

Lemma step_toolcall_notified c toolCall :
  c_notified (step c (ToolCall toolCall)) =
    c_notified c ++ notified_by c (ToolCall toolCall).
Proof. rewrite notified_by_toolcall. reflexivity. Qed.

Lemma written_room toolCall fcs roomFc :
  functionCalls toolCall = Some fcs ->
  find (name_is roomInspectionDeclaration) fcs = Some roomFc ->
  completes toolCall = true ->
  written toolCall = Some (Inspection (fc_args roomFc)).
Proof.
  intros F R K. unfold written. unfold completes in K.
  rewrite F in K |- *. rewrite R.
  destruct (find (name_is chartDeclaration) fcs) as [chartFc|];
    [|reflexivity].
  destruct (get_property (fc_args chartFc) "json_graph");
    [reflexivity | discriminate K].
Qed.

(** A step keeps the parent's last answer right. *)
Lemma step_keeps_parent_in_sync f c ev :
  settled {| onRoomInspectionChange := Some f |} c ->
  last (c_notified c) = Some (f, inspection_active (c_state c)) ->
  last (c_notified (step c ev)) =
    Some (f, inspection_active (c_state (step c ev))).
Proof.
  intros S L. destruct ev as [toolCall|ms]; [|exact L].
  rewrite step_toolcall_notified.
  rewrite (settled_notification f c toolCall S).
  change (c_state (step c (ToolCall toolCall)))
    with (dispatch (c_state c) toolCall).
  destruct (same_value (roomResult (c_state c))
              (roomResult (dispatch (c_state c) toolCall))) eqn:V.
  - rewrite app_nil_r, L. apply same_value_truthy in V.
    unfold inspection_active. rewrite V. reflexivity.
  - apply last_snoc.
Qed.

(** X10.  A component mounted without the optional callback never calls
    anything, whatever arrives. *)
Theorem no_callback_never_notified (evs : list Event) :
  c_notified (steps (mount {| onRoomInspectionChange := None |}) evs) = [].
Proof.
  assert (forall es c,
            c_props c = {| onRoomInspectionChange := None |} ->
            c_notified c = [] ->
            c_notified (steps c es) = []) as G.
  { induction es as [|ev rest IH]; intros c P N; [exact N|].
    simpl. destruct ev as [toolCall|ms]; apply IH; try assumption.
    cbn [step c_notified]. rewrite N, P. unfold after_commit, notify_effect.
    simpl. destruct (deps_unchanged _ _); reflexivity. }
  apply G; reflexivity.
Qed.

(** X11.  The callback hears about every new result object, not only about
    changes of presence: while an inspection result is shown, a completed
    batch whose inspection item carries another argument object, and whose
    new state React commits, calls the callback with [true] again, and one
    that carries the very same object calls nothing. *)
Theorem fresh_result_renotifies (str2num : string -> spec_float)
    (f : positive) (evs : list Event)
    (toolCall : LiveServerToolCall) (fcs : list FunctionCall)
    (roomFc : FunctionCall) (r r' : positive)
    (props props' : gmap string value) :
  let c := steps (mount {| onRoomInspectionChange := Some f |}) evs in
  roomResult (c_state c) = VObj r props ->
  functionCalls toolCall = Some fcs ->
  find (name_is roomInspectionDeclaration) fcs = Some roomFc ->
  fc_args roomFc = VObj r' props' ->
  fst (handle (c_state c) toolCall) = Normal tt ->
  commits str2num (c_state (step c (ToolCall toolCall))) = true ->
  notified_by c (ToolCall toolCall) =
    if Pos.eqb r r' then [] else [(f, true)].
Proof.
  intros c Old F R A N _.
  assert (settled {| onRoomInspectionChange := Some f |} c) as S
    by (apply steps_settled, mount_settled).
  rewrite (settled_notification f c toolCall S).
  apply completes_normal in N.
  rewrite dispatch_written, (written_room toolCall fcs roomFc F R N).
  simpl. rewrite Old, A. simpl. reflexivity.
Qed.

Lemma fresh_result_renotifies_witness :
  notified_by
    (steps (mount Examples.parent)
       [ToolCall (Examples.batch [Examples.room2])])
    (ToolCall (Examples.batch [Examples.room7])) = [(1%positive, true)]
  /\ notified_by
       (steps (mount Examples.parent)
          [ToolCall (Examples.batch [Examples.room2])])
       (ToolCall (Examples.batch [Examples.unknown4; Examples.room2])) = [].
Proof.
  split.
  - apply (fresh_result_renotifies (fun _ => S754_nan) 1
             [ToolCall (Examples.batch [Examples.room2])]
             (Examples.batch [Examples.room7]) [Examples.room7]
             Examples.room7 2 7
             (<[ "assessment"%string := VStr "Tidy" ]>
                {[ "score"%string := Examples.number 8 ]})
             {[ "assessment"%string := Examples.number 3 ]});
      reflexivity.
  - apply (fresh_result_renotifies (fun _ => S754_nan) 1
             [ToolCall (Examples.batch [Examples.room2])]
             (Examples.batch [Examples.unknown4; Examples.room2])
             [Examples.unknown4; Examples.room2]
             Examples.room2 2 2
             (<[ "assessment"%string := VStr "Tidy" ]>
                {[ "score"%string := Examples.number 8 ]})
             (<[ "assessment"%string := VStr "Tidy" ]>
                {[ "score"%string := Examples.number 8 ]}));
      reflexivity.
Defined.

(** ** What is shown *)




Lemma exclusive_one_region str2num s v :
  exclusive s -> render str2num s = Normal v -> mounted_count v = 1%nat.
Proof.
  unfold render, mounted_count, and_element. intros E H.
  destruct (truthy (roomResult s)) eqn:R.
  - destruct (inspector str2num (roomResult s)); [|discriminate H].
    inversion H; subst; clear H. simpl.
    destruct E as [E|E].
    + rewrite E. reflexivity.
    + rewrite E in R. discriminate R.
  - inversion H; subst; clear H. simpl.
    destruct (truthy (jsonString s)); reflexivity.
Qed.

(** X13.  Exactly one of the three blocks is on screen: in every state
    reached from the initial one by tool calls, the tree the component
    returns holds the chart container, the room-inspector block or the
    default panel, and only one of them. *)
Theorem exactly_one_region (str2num : string -> spec_float)
    (toolCalls : list LiveServerToolCall) (v : View) :
  render str2num (run initial toolCalls) = Normal v ->
  mounted_count v = 1%nat.
Proof.
  apply exclusive_one_region. apply run_exclusive. left. reflexivity.
Qed.

Lemma exactly_one_region_witness :
  mounted_count
    {| v_vega := Falsy (VStr "");
       v_inspector :=
         Element {| ins_color := "#dc3545";
                    ins_score := VUndefined;
                    ins_assessment := Examples.number 3 |};
       v_default := Falsy (VBool false) |} = 1%nat.
Proof.
  apply (exactly_one_region (fun _ => S754_nan)
           [Examples.batch [Examples.chart1];
            Examples.batch [Examples.room7]]).
  reflexivity.
Defined.

(** X14.  A chart call without usable text clears the screen: when the
    chart item picked carries arguments whose [json_graph] is missing, empty
    or otherwise falsy, and the batch has no inspection item, then from any
    state the component shows the default panel, and neither the chart
    container nor the inspector. *)
Theorem falsy_chart_text_shows_default (str2num : string -> spec_float)
    (s : State) (fcs : list FunctionCall) (chartFc : FunctionCall)
    (text : value) :
  find (name_is chartDeclaration) fcs = Some chartFc ->
  get_property (fc_args chartFc) "json_graph" = Normal text ->
  truthy text = false ->
  find (name_is roomInspectionDeclaration) fcs = None ->
  exists v,
    render str2num (dispatch s {| functionCalls := Some fcs |}) = Normal v
    /\ mounted (v_vega v) = false
    /\ mounted (v_inspector v) = false
    /\ mounted (v_default v) = true.
Proof.
  intros C G T R.
  rewrite dispatch_written. unfold written. simpl. rewrite C, R, G. simpl.
  unfold render, and_element. simpl. rewrite T. simpl. eauto.
Qed.

Lemma falsy_chart_text_shows_default_witness :
  exists v,
    render (fun _ => S754_nan)
      (dispatch (Inspection (fc_args Examples.room2))
         (Examples.batch [Examples.chart6])) = Normal v
    /\ mounted (v_vega v) = false
    /\ mounted (v_inspector v) = false
    /\ mounted (v_default v) = true.
Proof.
  apply (falsy_chart_text_shows_default (fun _ => S754_nan)
           (Inspection (fc_args Examples.room2)) [Examples.chart6]
           Examples.chart6 VUndefined); reflexivity.
Defined.

(** X15.  The colour of the score: for a whole score from 0 to 10 it is
    green from 7 up, amber for 5 and 6, red below; a score that is missing,
    [null] or a boolean is red. *)
Theorem score_color_thresholds (str2num : string -> spec_float) :
  (forall n : Z,
     0 <= n <= 10 ->
     score_color str2num (VNum (double_of_Z n)) =
       Normal (if 7 <=? n then "#28a745"%string
               else if 5 <=? n then "#ffc107"%string
               else "#dc3545"%string))
  /\ (forall score : value,
        score = VUndefined \/ score = VNull \/
        (exists b, score = VBool b) ->
        score_color str2num score = Normal "#dc3545"%string).
Proof.
  split.
  - intros n H.
    assert (Z.to_nat n <= 10)%nat as K by lia.
    rewrite <- (Z2Nat.id n) by lia.
    revert K. generalize (Z.to_nat n). intros k K.
    do 11 (destruct k as [|k]; [reflexivity|]).
    lia.
  - intros score [E|[E|[[|] E]]]; subst score; reflexivity.
Qed.

Lemma score_color_thresholds_witness :
  score_color (fun _ => S754_nan) (VNum (double_of_Z 6)) =
    Normal "#ffc107"%string
  /\ score_color (fun _ => S754_nan) VUndefined = Normal "#dc3545"%string.
Proof.
  destruct (score_color_thresholds (fun _ => S754_nan)) as [A B].
  split.
  - apply (A 6). lia.
  - apply (B VUndefined). left. reflexivity.
Defined.

(** ** Embedding the chart *)

Lemma spec_float_eqb_eq x y : spec_float_eqb x y = true -> x = y.
Proof.
  destruct x as [s|s| |s m e], y as [t|t| |t n f]; simpl;
    try discriminate; try reflexivity.
  - intros H. apply Bool.eqb_prop in H. congruence.
  - intros H. apply Bool.eqb_prop in H. congruence.
  - intros H. apply andb_prop in H as [H E]. apply andb_prop in H as [S M].
    apply Bool.eqb_prop in S. apply Pos.eqb_eq in M. apply Z.eqb_eq in E.
    congruence.
Qed.

Lemma spec_float_eqb_refl x : spec_float_eqb x x = true.
Proof.
  destruct x as [s|s| |s m e]; simpl; try reflexivity.
  - destruct s; reflexivity.
  - destruct s; reflexivity.
  - rewrite Pos.eqb_refl, Z.eqb_refl. destruct s; reflexivity.
Qed.

Lemma same_value_refl v : same_value v v = true.
Proof.
  destruct v as [| |b|x|t|r m]; simpl; try reflexivity.
  - destruct b; reflexivity.
  - apply spec_float_eqb_refl.
  - apply String.eqb_refl.
  - apply Pos.eqb_refl.
Qed.

Lemma same_value_trans a b c :
  same_value a b = true -> same_value b c = true -> same_value a c = true.
Proof.
  destruct a as [| |x|x|x|r m], b as [| |y|y|y|r' m'];
    simpl; try discriminate; intros H;
    destruct c as [| |z|z|z|r'' m'']; simpl; try discriminate;
    try reflexivity; intros G.
  - apply Bool.eqb_prop in H. subst y. exact G.
  - apply spec_float_eqb_eq in H. subst y. exact G.
  - apply String.eqb_eq in H. subst y. exact G.
  - apply Pos.eqb_eq in H. subst r'. exact G.
Qed.

Lemma embed_effect_truthy old s :
  List.Forall (fun v => truthy v = true) (embed_effect old s).
Proof.
  unfold embed_effect, embed_body, and_element.
  destruct (same_value old (jsonString s)); [constructor|].
  destruct (truthy (jsonString s)) eqn:T; simpl; repeat constructor.
  exact T.
Qed.


Lemma page_steps_invariant (str2num : string -> spec_float)
    (parses : value -> bool) (I : Page -> Prop) :
  (forall pg ev pg', I pg -> page_step str2num parses pg ev = Some pg' -> I pg') ->
  forall evs pg pg',
    I pg -> page_steps str2num parses pg evs = Some pg' -> I pg'.
Proof.
  intros Step. induction evs as [|ev rest IH]; intros pg pg' H R.
  - simpl in R. congruence.
  - simpl in R. destruct (page_step str2num parses pg ev) as [pg1|] eqn:S;
      [|discriminate R].
    exact (IH pg1 pg' (Step pg ev pg1 H S) R).
Qed.

Lemma page_steps_app str2num parses pg evs evs' :
  page_steps str2num parses pg (evs ++ evs') =
    match page_steps str2num parses pg evs with
    | Some pg' => page_steps str2num parses pg' evs'
    | None => None
    end.
Proof.
  revert pg. induction evs as [|ev rest IH]; intros pg; [reflexivity|].
  simpl. destruct (page_step str2num parses pg ev); [apply IH | reflexivity].
Qed.

(** What an emission heard by a subscribed component leaves, when the
    embedding does not fail. *)
Lemma page_step_emit str2num parses pg toolCall pg' :
  pg_listening pg = true ->
  page_step str2num parses pg (Emit toolCall) = Some pg' ->
  pg_component pg' = step (pg_component pg) (ToolCall toolCall)
  /\ pg_listening pg' = true
  /\ pg_parsed pg' =
       pg_parsed pg ++
       embed_effect (jsonString (c_state (pg_component pg)))
         (dispatch (c_state (pg_component pg)) toolCall)
  /\ forallb parses
       (embed_effect (jsonString (c_state (pg_component pg)))
          (dispatch (c_state (pg_component pg)) toolCall)) = true.
Proof.
  intros L H. unfold page_step in H. rewrite L in H.
  change (c_state (step (pg_component pg) (ToolCall toolCall)))
    with (dispatch (c_state (pg_component pg)) toolCall) in H.
  destruct (commits str2num _) eqn:K; [|discriminate H].
  destruct (forallb parses _) eqn:P; [|discriminate H].
  inversion H; subst; clear H. simpl. repeat split.
Qed.

(** X16.  Only a shown chart is ever parsed: along every run in which no
    embedding fails, every value the component has handed to [JSON.parse]
    was truthy, so the empty text and a missing [json_graph] are never
    parsed, whatever has arrived and in whatever order. *)
Theorem parse_only_truthy (str2num : string -> spec_float)
    (parses : value -> bool) (p : AltairProps)
    (evs : list PageEvent) (pg : Page) :
  page_steps str2num parses (open_page p) evs = Some pg ->
  List.Forall (fun v => truthy v = true) (pg_parsed pg).
Proof.
  apply (page_steps_invariant str2num parses
           (fun pg => List.Forall (fun v => truthy v = true) (pg_parsed pg))).
  - clear. intros pg ev pg' H S.
    destruct ev as [toolCall|ms|]; simpl in S.
    + destruct (pg_listening pg) eqn:L; [|congruence].
      destruct (page_step_emit str2num parses pg toolCall pg' L) as (_ & _ & E & _).
      { simpl. rewrite L. exact S. }
      rewrite E. apply List.Forall_app.
      split; [exact H | apply embed_effect_truthy].
    + inversion S; subst. exact H.
    + inversion S; subst. exact H.
  - constructor.
Qed.

Lemma parse_only_truthy_witness :
  List.Forall (fun v => truthy v = true) [VStr "{}"; VStr "[]"].
Proof.
  apply (parse_only_truthy (fun _ => S754_nan) parses_examples Examples.parent
           [Emit (Examples.batch [Examples.chart1]);
            Emit (Examples.batch [Examples.chart6]);
            Emit (Examples.batch [chart8])]
           {| pg_component :=
                steps (mount Examples.parent)
                  [ToolCall (Examples.batch [Examples.chart1]);
                   ToolCall (Examples.batch [Examples.chart6]);
                   ToolCall (Examples.batch [chart8])];
              pg_listening := true;
              pg_parsed := [VStr "{}"; VStr "[]"] |}).
  reflexivity.
Defined.

(** X9.  The parent is never left with a stale answer: along every run of a
    component mounted with a callback in which no step fails (every new
    state is committed and every embedding returns), the last value the
    callback was called with is whether an inspection result is present
    now. *)
Theorem parent_in_sync (str2num : string -> spec_float)
    (parses : value -> bool) (f : positive) (evs : list PageEvent)
    (pg : Page) :
  page_steps str2num parses
    (open_page {| onRoomInspectionChange := Some f |}) evs = Some pg ->
  last (c_notified (pg_component pg)) =
    Some (f, inspection_active (c_state (pg_component pg))).
Proof.
  intros R.
  apply (page_steps_invariant str2num parses
           (fun pg =>
              settled {| onRoomInspectionChange := Some f |}
                (pg_component pg)
              /\ last (c_notified (pg_component pg)) =
                   Some (f, inspection_active (c_state (pg_component pg)))))
    with (evs := evs) (pg := open_page {| onRoomInspectionChange := Some f |});
    [| split; [apply mount_settled | reflexivity] | exact R].
  clear. intros pg ev pg' [S L] H.
  destruct ev as [toolCall|ms|]; simpl in H.
  - destruct (pg_listening pg) eqn:Li; [|inversion H; subst; split; assumption].
    destruct (page_step_emit str2num parses pg toolCall pg' Li) as (C & _).
    { simpl. rewrite Li. exact H. }
    rewrite C. split; [apply step_settled; exact S|].
    apply step_keeps_parent_in_sync; assumption.
  - inversion H; subst.
    split; [exact (step_settled _ (pg_component pg) (Elapse ms) S)|].
    exact (step_keeps_parent_in_sync f (pg_component pg) (Elapse ms) S L).
  - inversion H; subst. split; assumption.
Qed.

Lemma parent_in_sync_witness :
  last
    (c_notified
       (steps (mount Examples.parent)
          [ToolCall (Examples.batch [Examples.room2]);
           ToolCall (Examples.batch [Examples.chart1]);
           Elapse 10])) = Some (1%positive, false).
Proof.
  apply (parent_in_sync (fun _ => S754_nan) parses_examples 1
           [Emit (Examples.batch [Examples.room2]);
            Emit (Examples.batch [Examples.chart1]);
            Wait 10]
           {| pg_component :=
                steps (mount Examples.parent)
                  [ToolCall (Examples.batch [Examples.room2]);
                   ToolCall (Examples.batch [Examples.chart1]);
                   Elapse 10];
              pg_listening := true;
              pg_parsed := [VStr "{}"] |}).
  reflexivity.
Defined.

Lemma written_chart toolCall fcs chartFc text :
  functionCalls toolCall = Some fcs ->
  find (name_is chartDeclaration) fcs = Some chartFc ->
  get_property (fc_args chartFc) "json_graph" = Normal text ->
  find (name_is roomInspectionDeclaration) fcs = None ->
  written toolCall = Some (Chart text).
Proof.
  intros F C G R. unfold written. rewrite F, C, R, G. reflexivity.
Qed.

(** X17.  The chart is embedded again only when its text changes: while the
    component is subscribed and shows the text [t0], a chart batch (no
    inspection item) whose text is [t] hands [t] to [JSON.parse] when [t]
    differs from [t0] and is not empty, and hands over nothing when the text
    is the same, in which case the step cannot fail. *)
Theorem chart_reparsed_only_when_changed (str2num : string -> spec_float)
    (parses : value -> bool)
    (pg : Page) (toolCall : LiveServerToolCall) (fcs : list FunctionCall)
    (chartFc : FunctionCall) (t0 t : string) :
  pg_listening pg = true ->
  jsonString (c_state (pg_component pg)) = VStr t0 ->
  functionCalls toolCall = Some fcs ->
  find (name_is chartDeclaration) fcs = Some chartFc ->
  get_property (fc_args chartFc) "json_graph" = Normal (VStr t) ->
  find (name_is roomInspectionDeclaration) fcs = None ->
  (forall pg',
     page_step str2num parses pg (Emit toolCall) = Some pg' ->
     pg_parsed pg' =
       pg_parsed pg ++
       (if String.eqb t0 t then []
        else if truthy (VStr t) then [VStr t] else []))
  /\ (t0 = t -> exists pg', page_step str2num parses pg (Emit toolCall) = Some pg').
Proof.
  intros L J F C G R.
  assert (embed_effect (jsonString (c_state (pg_component pg)))
            (dispatch (c_state (pg_component pg)) toolCall) =
          if String.eqb t0 t then []
          else if truthy (VStr t) then [VStr t] else []) as E.
  { rewrite dispatch_written,
      (written_chart toolCall fcs chartFc _ F C G R).
    simpl. unfold embed_effect, embed_body, and_element. rewrite J. simpl.
    destruct (String.eqb t0 t); [reflexivity|].
    destruct t; reflexivity. }
  split.
  - intros pg' S.
    destruct (page_step_emit str2num parses pg toolCall pg' L S) as (_ & _ & P & _).
    rewrite P, E. reflexivity.
  - intros T. subst t. unfold page_step. rewrite L.
    change (c_state (step (pg_component pg) (ToolCall toolCall)))
      with (dispatch (c_state (pg_component pg)) toolCall).
    rewrite E, String.eqb_refl.
    rewrite dispatch_written,
      (written_chart toolCall fcs chartFc _ F C G R).
    cbn [default]. rewrite commits_without_result by reflexivity.
    simpl. eauto.
Qed.

Lemma chart_reparsed_only_when_changed_witness :
  let pg :=
    {| pg_component :=
         steps (mount Examples.parent)
           [ToolCall (Examples.batch [Examples.chart1])];
       pg_listening := true;
       pg_parsed := [VStr "{}"] |} in
  (forall pg',
     page_step (fun _ => S754_nan) parses_examples pg (Emit (Examples.batch [chart8])) =
       Some pg' ->
     pg_parsed pg' = [VStr "{}"; VStr "[]"])
  /\ exists pg',
       page_step (fun _ => S754_nan) parses_examples pg
         (Emit (Examples.batch [Examples.chart1])) = Some pg'.
Proof.
  intros pg. split.
  - exact (proj1 (chart_reparsed_only_when_changed (fun _ => S754_nan) parses_examples pg
                    (Examples.batch [chart8]) [chart8] chart8 "{}" "[]"
                    eq_refl eq_refl eq_refl eq_refl eq_refl eq_refl)).
  - exact (proj2 (chart_reparsed_only_when_changed (fun _ => S754_nan) parses_examples pg
                    (Examples.batch [Examples.chart1]) [Examples.chart1]
                    Examples.chart1 "{}" "{}"
                    eq_refl eq_refl eq_refl eq_refl eq_refl eq_refl)
             eq_refl).
Defined.

(** X18.  The embedded chart is the current one: along every run in which
    no embedding fails, whenever the state holds a chart to show, the last
    value handed to [JSON.parse] is that chart text, and it parsed. *)
Theorem embedded_chart_in_sync (str2num : string -> spec_float)
    (parses : value -> bool) (p : AltairProps)
    (evs : list PageEvent) (pg : Page) :
  page_steps str2num parses (open_page p) evs = Some pg ->
  chart_active (c_state (pg_component pg)) = true ->
  exists v,
    last (pg_parsed pg) = Some v
    /\ same_value v (jsonString (c_state (pg_component pg))) = true
    /\ parses v = true.
Proof.
  apply (page_steps_invariant str2num parses
           (fun pg =>
              chart_active (c_state (pg_component pg)) = true ->
              exists v,
                last (pg_parsed pg) = Some v
                /\ same_value v (jsonString (c_state (pg_component pg)))
                   = true
                /\ parses v = true)).
  - clear. intros pg ev pg' H S.
    destruct ev as [toolCall|ms|]; simpl in S.
    + destruct (pg_listening pg) eqn:L; [|inversion S; subst; exact H].
      destruct (page_step_emit str2num parses pg toolCall pg' L)
        as (C & _ & E & P).
      { simpl. rewrite L. exact S. }
      rewrite C, E.
      change (c_state (step (pg_component pg) (ToolCall toolCall)))
        with (dispatch (c_state (pg_component pg)) toolCall).
      set (s := c_state (pg_component pg)) in *.
      set (s' := dispatch s toolCall) in *.
      unfold embed_effect, embed_body, and_element in P |- *.
      destruct (same_value (jsonString s) (jsonString s')) eqn:V.
      * rewrite app_nil_r. intros A.
        pose proof (same_value_truthy _ _ V) as T.
        unfold chart_active in A, H. rewrite <- T in A.
        destruct (H A) as (v & Hl & Hv & Hp).
        exists v. split; [exact Hl|]. split; [|exact Hp].
        exact (same_value_trans _ _ _ Hv V).
      * unfold chart_active. intros A. rewrite A in P |- *. simpl in P |- *.
        exists (jsonString s'). split; [apply last_snoc|].
        split; [apply same_value_refl|].
        apply andb_prop in P as [P _]. exact P.
    + inversion S; subst. exact H.
    + inversion S; subst. exact H.
  - simpl. discriminate.
Qed.

Lemma embedded_chart_in_sync_witness :
  exists v,
    last [VStr "{}"; VStr "{}"; VStr "[]"] = Some v
    /\ same_value v (VStr "[]") = true
    /\ parses_examples v = true.
Proof.
  apply (embedded_chart_in_sync (fun _ => S754_nan) parses_examples Examples.parent
           [Emit (Examples.batch [Examples.chart1]);
            Emit (Examples.batch [Examples.room2]);
            Emit (Examples.batch [Examples.chart1]);
            Emit (Examples.batch [chart8])]
           {| pg_component :=
                steps (mount Examples.parent)
                  [ToolCall (Examples.batch [Examples.chart1]);
                   ToolCall (Examples.batch [Examples.room2]);
                   ToolCall (Examples.batch [Examples.chart1]);
                   ToolCall (Examples.batch [chart8])];
              pg_listening := true;
              pg_parsed := [VStr "{}"; VStr "{}"; VStr "[]"] |}).
  - reflexivity.
  - reflexivity.
Defined.

(** ** After the component is removed *)

Lemma page_step_pending_ordered str2num parses pg ev pg' :
  pending_ordered (pg_component pg) ->
  page_step str2num parses pg ev = Some pg' ->
  pending_ordered (pg_component pg').
Proof.
  intros H S. destruct ev as [toolCall|ms|]; simpl in S.
  - destruct (pg_listening pg) eqn:L; [|inversion S; subst; exact H].
    destruct (page_step_emit str2num parses pg toolCall pg' L) as (C & _).
    { simpl. rewrite L. exact S. }
    rewrite C. apply (step_pending_ordered _ (ToolCall toolCall) H).
  - inversion S; subst. apply (step_pending_ordered _ (Elapse ms) H).
  - inversion S; subst. exact H.
Qed.

Lemma unsubscribed_steps str2num parses more :
  forall pg,
    pg_listening pg = false ->
    pending_ordered (pg_component pg) ->
    exists pg',
      page_steps str2num parses pg more = Some pg'
      /\ pg_listening pg' = false
      /\ pending_ordered (pg_component pg')
      /\ c_state (pg_component pg') = c_state (pg_component pg)
      /\ c_notified (pg_component pg') = c_notified (pg_component pg)
      /\ pg_parsed pg' = pg_parsed pg
      /\ c_sent (pg_component pg') ++ pending_replies (pg_component pg') =
           c_sent (pg_component pg) ++ pending_replies (pg_component pg).
Proof.
  induction more as [|ev rest IH]; intros pg L O.
  { exists pg. split; [reflexivity|]. split; [exact L|].
    split; [exact O|]. repeat split. }
  assert (exists pg1,
            page_step str2num parses pg ev = Some pg1
            /\ pg_listening pg1 = false
            /\ c_state (pg_component pg1) = c_state (pg_component pg)
            /\ c_notified (pg_component pg1) = c_notified (pg_component pg)
            /\ pg_parsed pg1 = pg_parsed pg
            /\ c_sent (pg_component pg1) ++
               pending_replies (pg_component pg1) =
                 c_sent (pg_component pg) ++
                 pending_replies (pg_component pg))
    as (pg1 & S & L1 & C1 & D1 & E1 & F1).
  { destruct ev as [toolCall|ms|]; simpl.
    - rewrite L. exists pg. repeat split. exact L.
    - eexists. split; [reflexivity|]. simpl.
      split; [exact L|]. repeat split.
      pose proof (step_conserves (pg_component pg) (Elapse ms) O) as S.
      cbn [owed_by] in S. rewrite app_nil_r in S. exact S.
    - eexists. split; [reflexivity|]. simpl. repeat split. }
  pose proof (page_step_pending_ordered str2num parses pg ev pg1 O S) as O1.
  destruct (IH pg1 L1 O1) as (pg' & R & A & B & C & D & E & F).
  exists pg'. simpl. rewrite S.
  split; [exact R|]. split; [exact A|]. split; [exact B|].
  split; [congruence|]. split; [congruence|]. split; [congruence|].
  congruence.
Qed.

(** X19.  Removing the component stops the handler but not the timeouts:
    after the unsubscription of the cleanup, whatever the client emits and
    however much time passes, no step fails, the state, the calls made to
    the parent and the values handed to [JSON.parse] stay as they were, and
    no new reply arises; the replies that were pending are still handed to
    the client, all of them once 200 ms have passed in one stretch. *)
Theorem after_unmount (str2num : string -> spec_float)
    (parses : value -> bool) (p : AltairProps)
    (evs more : list PageEvent) (ms : Z) (pg : Page) :
  page_steps str2num parses (open_page p) (evs ++ [Unmount]) = Some pg ->
  exists pg',
    page_steps str2num parses pg more = Some pg'
    /\ c_state (pg_component pg') = c_state (pg_component pg)
    /\ c_notified (pg_component pg') = c_notified (pg_component pg)
    /\ pg_parsed pg' = pg_parsed pg
    /\ c_sent (pg_component pg') ++ pending_replies (pg_component pg') =
         c_sent (pg_component pg) ++ pending_replies (pg_component pg)
    /\ (200 <= ms ->
        exists pg'',
          page_steps str2num parses pg (more ++ [Wait ms]) = Some pg''
          /\ c_sent (pg_component pg'') =
               c_sent (pg_component pg) ++
               pending_replies (pg_component pg)).
Proof.
  intros R.
  assert (pending_ordered (pg_component pg)) as O.
  { apply (page_steps_invariant str2num parses
             (fun pg => pending_ordered (pg_component pg))
             (fun pg ev pg' H S =>
                page_step_pending_ordered str2num parses pg ev pg' H S)
             (evs ++ [Unmount]) (open_page p) pg);
      [apply mount_pending_ordered | exact R]. }
  assert (pg_listening pg = false) as L.
  { rewrite page_steps_app in R.
    destruct (page_steps str2num parses (open_page p) evs) as [pg0|];
      [|discriminate R].
    simpl in R. inversion R; subst. reflexivity. }
  destruct (unsubscribed_steps str2num parses more pg L O)
    as (pg' & S & _ & O' & C & D & E & F).
  exists pg'. repeat split; try assumption.
  intros Hms. rewrite page_steps_app, S. simpl. eexists.
  split; [reflexivity|]. simpl. rewrite <- F.
  pose proof (step_conserves (pg_component pg') (Elapse ms) O') as K.
  cbn [owed_by] in K. rewrite app_nil_r in K.
  assert (c_pending (step (pg_component pg') (Elapse ms)) = []) as P.
  { cbn [step c_pending]. apply filter_all_due.
    destruct O' as [_ A]. apply ascending_bounded in A.
    eapply List.Forall_impl; [|exact A]. simpl. intros d Hd. lia. }
  unfold pending_replies at 1 in K. rewrite P in K. cbn [map] in K.
  rewrite app_nil_r in K. exact K.
Qed.

Lemma after_unmount_witness :
  exists pg'',
    page_steps (fun _ => S754_nan) parses_examples
      {| pg_component :=
           steps (mount Examples.parent)
             [ToolCall (Examples.batch [Examples.room2]); Elapse 50];
         pg_listening := false;
         pg_parsed := [] |}
      ([Emit (Examples.batch [Examples.chart1]); Wait 100] ++ [Wait 200]) =
      Some pg''
    /\ c_sent (pg_component pg'') =
         [{| functionResponses := Some [acknowledge Examples.room2] |}].
Proof.
  destruct (after_unmount (fun _ => S754_nan) parses_examples Examples.parent
              [Emit (Examples.batch [Examples.room2]); Wait 50]
              [Emit (Examples.batch [Examples.chart1]); Wait 100] 200
              {| pg_component :=
                   steps (mount Examples.parent)
                     [ToolCall (Examples.batch [Examples.room2]);
                      Elapse 50];
                 pg_listening := false;
                 pg_parsed := [] |} eq_refl)
    as (pg' & _ & _ & _ & _ & _ & H).
  apply H. lia.
Defined.

(** ** Page runs and component runs *)

(** A page run in which no embedding fails takes the component through the
    events it heard: what holds of every component run from [mount] holds
    of the component of every such page. *)
Lemma page_run_heard str2num parses evs :
  forall pg pg',
    page_steps str2num parses pg evs = Some pg' ->
    pg_component pg' =
      steps (pg_component pg) (heard (pg_listening pg) evs).
Proof.
  induction evs as [|ev rest IH]; intros pg pg' R; simpl in R.
  - inversion R; subst. reflexivity.
  - destruct (page_step str2num parses pg ev) as [pg1|] eqn:S; [|discriminate R].
    rewrite (IH pg1 pg' R). clear IH R.
    destruct ev as [toolCall|ms|]; simpl in S |- *.
    + destruct (pg_listening pg) eqn:L.
      * destruct (page_step_emit str2num parses pg toolCall pg1 L) as (C & L1 & _).
        { simpl. rewrite L. exact S. }
        rewrite C, L1. reflexivity.
      * inversion S; subst. rewrite L. reflexivity.
    + inversion S; subst. reflexivity.
    + inversion S; subst. reflexivity.
Qed.

(** ** An inspection call without arguments *)

(** X20.  An [inspect_room] item whose [args] field is absent is not an
    error: when the handler completes, it stores [undefined] as the result
    and clears the chart text, so the default panel is shown; and a
    component that had no result ([null]) calls the parent with [false]
    once more, because [undefined] is another value than [null]. *)
Theorem argless_inspection_shows_default (str2num : string -> spec_float)
    (f : positive) (evs : list Event) (toolCall : LiveServerToolCall)
    (fcs : list FunctionCall) (roomFc : FunctionCall) :
  let c := steps (mount {| onRoomInspectionChange := Some f |}) evs in
  roomResult (c_state c) = VNull ->
  functionCalls toolCall = Some fcs ->
  find (name_is roomInspectionDeclaration) fcs = Some roomFc ->
  fc_args roomFc = VUndefined ->
  fst (handle (c_state c) toolCall) = Normal tt ->
  c_state (step c (ToolCall toolCall)) = Inspection VUndefined
  /\ notified_by c (ToolCall toolCall) = [(f, false)]
  /\ exists v,
       render str2num (c_state (step c (ToolCall toolCall))) = Normal v
       /\ mounted (v_vega v) = false
       /\ mounted (v_inspector v) = false
       /\ mounted (v_default v) = true.
Proof.
  intros c Old F R A N.
  assert (settled {| onRoomInspectionChange := Some f |} c) as S
    by (apply steps_settled, mount_settled).
  apply completes_normal in N.
  assert (c_state (step c (ToolCall toolCall)) = Inspection VUndefined) as D.
  { change (c_state (step c (ToolCall toolCall)))
      with (dispatch (c_state c) toolCall).
    rewrite dispatch_written, (written_room toolCall fcs roomFc F R N), A.
    reflexivity. }
  split; [exact D|]. split.
  - rewrite (settled_notification f c toolCall S).
    change (dispatch (c_state c) toolCall)
      with (c_state (step c (ToolCall toolCall))).
    rewrite D, Old. reflexivity.
  - rewrite D. eexists. split; [reflexivity|]. repeat split.
Qed.

Lemma argless_inspection_shows_default_witness :
  notified_by
    (steps (mount Examples.parent)
       [ToolCall (Examples.batch [Examples.chart1])])
    (ToolCall
       (Examples.batch
          [{| fc_id := Some "9"%string;
              fc_name := Some "inspect_room"%string;
              fc_args := VUndefined |}])) = [(1%positive, false)].
Proof.
  destruct (argless_inspection_shows_default (fun _ => S754_nan) 1
              [ToolCall (Examples.batch [Examples.chart1])]
              (Examples.batch
                 [{| fc_id := Some "9"%string;
                     fc_name := Some "inspect_room"%string;
                     fc_args := VUndefined |}])
              [{| fc_id := Some "9"%string;
                  fc_name := Some "inspect_room"%string;
                  fc_args := VUndefined |}]
              {| fc_id := Some "9"%string;
                 fc_name := Some "inspect_room"%string;
                 fc_args := VUndefined |}
              eq_refl eq_refl eq_refl eq_refl eq_refl) as (_ & H & _).
  exact H.
Defined.
